(** * Feature-classification pipeline of the sklearn plant classifiers

    A shallow embedding of [server/improved-sklearn-classifier.py]
    (class [ImprovedSklearnClassifier]) and [server/sklearn-plant-classifier.py]
    (class [SklearnPlantClassifier]).

    Conventions of the embedding:
    - a numpy float64 value is a rational ([Q]): rounding is idealised, and
      the three library functions that leave the rationals (square root,
      cube root, the 2.4 power of the sRGB curve) are parameters, the
      fields of the class [Libm];
    - what the file system and the image decoder give ([cv2.imread],
      [cv2.resize], the unpickled files) is a parameter too;
    - a numpy row vector of shape (1, n) is a [list Q] of length n;
    - an 8-bit image is a list of rows of pixels, a pixel a triple of [Z];
    - a Python method is a computation in the monad [Py], which threads the
      object ([self]), a log of the calls made to the scaler, and a raised
      exception;
    - [np.argsort] is a parameter with its contract, the class [NpSort]:
      a permutation of the indices that puts the values in ascending order;
      the order it leaves equal values in is not fixed (numpy's default
      sort is not stable);
    - [print] calls are not modelled. *)

From Stdlib Require Import String Ascii DecimalString ZArith QArith Qround
  Bool Lia List Sorting.Sorted Sorting.Permutation.
Import ListNotations.
Open Scope Z_scope.

Set Implicit Arguments.

(* ------------------------------------------------------------------ *)
(** ** Images *)

(** A three-channel 8-bit pixel, in the channel order of the array it
    belongs to (BGR as read by [cv2.imread], RGB / HSV / LAB after
    [cv2.cvtColor]). *)
Definition pixel : Type := (Z * Z * Z)%type.

Definition ch0 (p : pixel) : Z := fst (fst p).
Definition ch1 (p : pixel) : Z := snd (fst p).
Definition ch2 (p : pixel) : Z := snd p.

Definition image : Type := list (list pixel).
Definition plane : Type := list (list Z).

(** The value [cv2.resize(img, (R, R))] returns: an array of shape
    (R, R, 3), given by its pixel at each row and column below [R]. *)
Record sq_image (R : nat) : Type := SqImage {
  pixel_at : nat -> nat -> pixel
}.

(** The rows of the array, each a list of its [R] pixels. *)
Definition rows (R : nat) (img : sq_image R) : image :=
  map (fun y => map (fun x => pixel_at img y x) (seq 0 R)) (seq 0 R).

Definition black_pixel : pixel := (0, 0, 0).

(** The R x R image whose every pixel is [p]. *)
Definition const_image (R : nat) (p : pixel) : sq_image R :=
  SqImage R (fun _ _ => p).

Definition black_image (R : nat) : sq_image R := const_image R black_pixel.

(* ------------------------------------------------------------------ *)
(** ** numpy reductions *)

Definition Zsum (l : list Z) : Z := fold_right Z.add 0 l.
Definition Qsum (l : list Q) : Q :=
  fold_right (fun x acc => Qred (x + acc)%Q) (0#1)%Q l.

Definition Qlen (A : Type) (l : list A) : Q := inject_Z (Z.of_nat (length l)).

(** [a.mean()] of an integer-valued array. *)
Definition np_mean (l : list Z) : Q :=
  Qred (inject_Z (Zsum l) / Qlen l)%Q.

(** The variance [np.std] takes the root of:
    [mean(abs(a - a.mean())**2)]. *)
Definition np_var (l : list Z) : Q :=
  let m := np_mean l in
  Qred (Qsum (map (fun x => Qred ((inject_Z x - m) * (inject_Z x - m)))%Q l)
        / Qlen l)%Q.

(** [img.flatten()] of an (R, R, 3) array: row-major, channels interleaved. *)
Definition flatten (img : image) : list Z :=
  flat_map (flat_map (fun p => [ch0 p; ch1 p; ch2 p])) img.

(** The values of one channel, [img[:, :, k]], in row-major order. *)
Definition channel (k : pixel -> Z) (img : image) : list Z :=
  flat_map (map k) img.

Definition ravel (g : plane) : list Z := concat g.

(** [img.mean(axis=(0,1))]: one mean per channel. *)
Definition mean_axis01 (img : image) : list Q :=
  [np_mean (channel ch0 img); np_mean (channel ch1 img);
   np_mean (channel ch2 img)].

(* ------------------------------------------------------------------ *)
(** ** cv2.cvtColor, per pixel (8-bit images) *)

Definition cvtColor (f : pixel -> pixel) (img : image) : image :=
  map (map f) img.

Definition cvtGray (f : pixel -> Z) (img : image) : plane :=
  map (map f) img.

(** [cv2.COLOR_BGR2RGB]: the channels swapped. *)
Definition COLOR_BGR2RGB (p : pixel) : pixel := (ch2 p, ch1 p, ch0 p).

(** [saturate_cast<uchar>] of a real: nearest integer, clamped to 0..255. *)
Definition saturate_u8 (q : Q) : Z :=
  Z.max 0 (Z.min 255 (Qfloor (q + (1#2))%Q)).

(** [cv2.COLOR_BGR2GRAY] on 8-bit data: the fixed-point form of
    0.299 R + 0.587 G + 0.114 B (coefficients scaled by 2^15, the result
    rounded by adding 2^14 before the shift). *)
Definition COLOR_BGR2GRAY (p : pixel) : Z :=
  Z.shiftr (ch2 p * 9798 + ch1 p * 19235 + ch0 p * 3735 + Z.shiftl 1 14) 15.

(** [cv2.COLOR_BGR2HSV] on 8-bit data, in OpenCV's fixed point
    ([hsv_shift] = 12). The two division tables hold
    [round((255 << 12) / i)] and [round((180 << 12) / (6 i))], and 0 at
    index 0; no entry is halfway between two integers. *)
Definition hsv_shift : Z := 12.

Definition round_div (a d : Z) : Z := (2 * a + d) / (2 * d).

Definition sdiv_table (i : Z) : Z :=
  if i =? 0 then 0 else round_div (Z.shiftl 255 hsv_shift) i.

Definition hdiv_table180 (i : Z) : Z :=
  if i =? 0 then 0 else round_div (Z.shiftl 180 hsv_shift) (6 * i).

(** V = max, S = 255 (V - min) / V, H = half the hue angle in degrees,
    each through its table; a negative hue is brought back by 180. *)
Definition COLOR_BGR2HSV (p : pixel) : pixel :=
  let b := ch0 p in
  let g := ch1 p in
  let r := ch2 p in
  let v := Z.max b (Z.max g r) in
  let vmin := Z.min b (Z.min g r) in
  let diff := v - vmin in
  let half := Z.shiftl 1 (hsv_shift - 1) in
  let s := Z.shiftr (diff * sdiv_table v + half) hsv_shift in
  let h0 :=
    if v =? r then g - b
    else if v =? g then b - r + 2 * diff
    else r - g + 4 * diff in
  let h1 := Z.shiftr (h0 * hdiv_table180 diff + half) hsv_shift in
  let h := if h1 <? 0 then h1 + 180 else h1 in
  (Z.max 0 (Z.min 255 h), s, v).

(* ------------------------------------------------------------------ *)
(** ** cv2.Sobel, ksize 3, default border *)

(** [cv::borderInterpolate] for BORDER_REFLECT_101 (the default border of
    [cv2.Sobel]), for an index at most one step outside [0, len). *)
Definition border101 (len i : Z) : Z :=
  if len =? 1 then 0
  else if i <? 0 then - i
  else if len <=? i then 2 * len - 2 - i
  else i.

Definition plane_at (g : plane) (y x : Z) : Z :=
  let h := Z.of_nat (length g) in
  let row := nth (Z.to_nat (border101 h y)) g [] in
  let w := Z.of_nat (length row) in
  nth (Z.to_nat (border101 w x)) row 0.

Definition coords (n : nat) : list Z := map Z.of_nat (seq 0 n).

(** [cv2.Sobel(gray, cv2.CV_64F, 1, 0, ksize=3)]: the kernel
    [[-1 0 1] [-2 0 2] [-1 0 1]]. The output is float64, with integer
    values. *)
Definition sobel_dx (g : plane) : plane :=
  map (fun y =>
         map (fun x =>
                (plane_at g (y - 1) (x + 1) + 2 * plane_at g y (x + 1)
                 + plane_at g (y + 1) (x + 1))
                - (plane_at g (y - 1) (x - 1) + 2 * plane_at g y (x - 1)
                   + plane_at g (y + 1) (x - 1)))
             (coords (length (nth (Z.to_nat y) g []))))
      (coords (length g)).

(** [cv2.Sobel(gray, cv2.CV_64F, 0, 1, ksize=3)]: the transposed kernel. *)
Definition sobel_dy (g : plane) : plane :=
  map (fun y =>
         map (fun x =>
                (plane_at g (y + 1) (x - 1) + 2 * plane_at g (y + 1) x
                 + plane_at g (y + 1) (x + 1))
                - (plane_at g (y - 1) (x - 1) + 2 * plane_at g (y - 1) x
                   + plane_at g (y - 1) (x + 1)))
             (coords (length (nth (Z.to_nat y) g []))))
      (coords (length g)).

(* ------------------------------------------------------------------ *)
(** ** Python values and exceptions *)

(** The exception classes the two files can meet. All are subclasses of
    [Exception]; [str(e)] is the message carried. *)
Inductive exn : Type :=
  | ValueError (msg : string)
  | AttributeError (msg : string)
  | IndexError (msg : string)
  | TypeError (msg : string)
  | OSError (msg : string)
  | UnpicklingError (msg : string)
  | OtherError (msg : string).

Definition str (e : exn) : string :=
  match e with
  | ValueError m | AttributeError m | IndexError m | TypeError m
  | OSError m | UnpicklingError m | OtherError m => m
  end.

(** [isinstance(e, ValueError)], as tested by [except ValueError]. *)
Definition is_ValueError (e : exn) : bool :=
  match e with ValueError _ => true | _ => false end.

(** The values the classify methods return: [None] or a dict that
    [json.dumps] can print. A dict is its list of items, in insertion
    order. *)
#[local] Unset Elimination Schemes.
Inductive pyvalue : Type :=
  | PyNone
  | PyBool (b : bool)
  | PyStr (s : string)
  | PyFloat (q : Q)
  | PyList (l : list pyvalue)
  | PyDict (items : list (string * pyvalue)).
#[local] Set Elimination Schemes.

Fixpoint dict_get (items : list (string * pyvalue)) (key : string)
  : option pyvalue :=
  match items with
  | [] => None
  | (k, v) :: rest => if String.eqb k key then Some v else dict_get rest key
  end.

(** [seq[i]] for a Python list or a 1-d numpy array: a negative index
    counts from the end, an index out of range raises [IndexError]. *)
Definition py_index (A : Type) (l : list A) (i : Z) : exn + A :=
  let n := Z.of_nat (length l) in
  let j := if i <? 0 then i + n else i in
  if (j <? 0) || (n <=? j)
  then inl (IndexError "index out of range")
  else match nth_error l (Z.to_nat j) with
       | Some a => inr a
       | None => inl (IndexError "index out of range")
       end.

(** [seq[-k:]]: the last [k] items, all of them when there are fewer
    (for k > 0). *)
Definition last_n (A : Type) (k : nat) (l : list A) : list A :=
  skipn (length l - k) l.

(** [f'class_{i}'] *)
Definition class_label (i : nat) : string :=
  ("class_" ++ NilZero.string_of_uint (Nat.to_uint i))%string.

(* ------------------------------------------------------------------ *)
(** ** The method monad: object state, scaler-call log, exceptions *)

(** What the log records: each argument [scaler.transform] was called
    with, and each entry into the [except ValueError] branch of
    [classify_image_safe]. *)
Inductive event : Type :=
  | ScalerTransform (features : list Q)
  | DimensionRecovery.

Record outcome (S A : Type) : Type := Outcome {
  result : exn + A;
  self_after : S;
  log_after : list event
}.

Definition Py (S A : Type) : Type := S -> list event -> outcome S A.

Definition ret {S A : Type} (a : A) : Py S A :=
  fun self log => Outcome (inr a) self log.

Definition raise {S A : Type} (e : exn) : Py S A :=
  fun self log => Outcome (inl e) self log.

Definition bind {S A B : Type} (m : Py S A) (k : A -> Py S B) : Py S B :=
  fun self log =>
    let o := m self log in
    match result o with
    | inl e => Outcome (inl e) (self_after o) (log_after o)
    | inr a => k a (self_after o) (log_after o)
    end.

(** [try: m  except Exception as e: handler(e)] *)
Definition try_except {S A : Type} (m : Py S A) (handler : exn -> Py S A)
  : Py S A :=
  fun self log =>
    let o := m self log in
    match result o with
    | inl e => handler e (self_after o) (log_after o)
    | inr a => o
    end.

(** [try: m  except ValueError as e: handler(e)]: any other exception
    propagates. *)
Definition try_except_ValueError {S A : Type} (m : Py S A)
  (handler : exn -> Py S A) : Py S A :=
  try_except m (fun e => if is_ValueError e then handler e else raise e).

Definition get_self {S : Type} : Py S S :=
  fun self log => Outcome (inr self) self log.

Definition set_self {S : Type} (new : S) : Py S unit :=
  fun _ log => Outcome (inr tt) new log.

Definition emit {S : Type} (ev : event) : Py S unit :=
  fun self log => Outcome (inr tt) self (log ++ [ev]).

(** A library call that returns or raises, without touching [self]. *)
Definition call {S A : Type} (r : exn + A) : Py S A :=
  fun self log => Outcome r self log.

Declare Scope py_scope.
Delimit Scope py_scope with py.
Notation "x <- m ;; k" := (bind m (fun x => k))
  (at level 61, m at next level, right associativity) : py_scope.
Notation "m ;;; k" := (bind m (fun _ => k))
  (at level 61, right associativity) : py_scope.

(* ------------------------------------------------------------------ *)
(** ** The persisted sklearn objects *)

(** A fitted scaler. [transform] checks the number of columns of its
    argument against the width it was fitted on and raises [ValueError]
    when they differ; the attribute [n_features_in_] holds that width, on
    the sklearn versions that store it. *)
Record Scaler : Type := {
  fit_width : nat;
  has_n_features_in_ : bool;
  scale_row : list Q -> list Q
}.

Definition width_mismatch : exn :=
  ValueError "X has a different number of features than the scaler expects".

Definition scaler_transform (s : Scaler) (x : list Q) : exn + list Q :=
  if (length x =? fit_width s)%nat
  then inr (scale_row s x)
  else inl width_mismatch.

(** A fitted PCA: [transform] may raise (for instance on a width it was
    not fitted on). *)
Record PCA : Type := {
  n_components_ : option nat;
  pca_transform : list Q -> exn + list Q
}.

(** A fitted classifier. [predict(x)[0]] is used as an index by both
    files; [predict_proba(x)[0]] is the probability row. *)
Record Model : Type := {
  predict : list Q -> exn + Z;
  predict_proba : list Q -> exn + list Q;
  classes_ : option (list string)
}.

(** What [open(path, 'rb')] followed by [pickle.load] gives for each of the
    three files of the models directory, and [json.load] for the plant
    information. *)
Record models_dir : Type := {
  Best_Model_pkl : exn + Model;
  pca_pkl : exn + PCA;
  scaler_pkl : exn + Scaler;
  plant_info_trained_json : exn + list (string * string)
}.

(* ------------------------------------------------------------------ *)
(** ** np.argsort and the top-3 selection *)

Definition prob_at (probabilities : list Q) (i : nat) : Q :=
  nth i probabilities 0%Q.

(** The order [np.argsort] puts the indices in: ascending value. *)
Definition sorts_before (probabilities : list Q) (i j : nat) : Prop :=
  (prob_at probabilities i <= prob_at probabilities j)%Q.

(** [np.argsort(a)], default kind: a permutation of the indices of [a]
    that puts its values in ascending order. The default sort of numpy is
    not stable, and which of two equal values comes first depends on the
    numpy build and on the array; so [argsort] is taken with this contract
    and nothing more. *)
Class NpSort : Type := {
  argsort : list Q -> list nat;
  argsort_permutes :
    forall a, Permutation (argsort a) (seq 0 (length a));
  argsort_ascends :
    forall a, StronglySorted (sorts_before a) (argsort a)
}.

(** [np.argsort(probabilities)[-3:][::-1]] *)
Definition top_indices {np : NpSort} (probabilities : list Q) : list nat :=
  rev (last_n 3 (argsort probabilities)).

(** Two sorts that meet the contract, both by insertion of the indices
    0, 1, ... in turn: index [i] goes in front of the first index [j]
    placed for which [before a[i] a[j]] holds. *)
Fixpoint insert_index (before : Q -> Q -> bool) (a : list Q) (i : nat)
  (sorted : list nat) : list nat :=
  match sorted with
  | [] => [i]
  | j :: rest =>
      if before (prob_at a i) (prob_at a j)
      then i :: j :: rest
      else j :: insert_index before a i rest
  end.

Definition insertion_argsort (before : Q -> Q -> bool) (a : list Q)
  : list nat :=
  fold_left (fun sorted i => insert_index before a i sorted)
            (seq 0 (length a)) [].

(** Only in front of a larger value: equal values keep their index order
    (a stable sort, [kind='stable']). *)
Definition strictly_less (x y : Q) : bool := negb (Qle_bool y x).

(** In front of any value not smaller: equal values end in descending
    index order. *)
Definition less_or_equal (x y : Q) : bool := Qle_bool x y.

(** An insertion sort meets the contract when [before x y] implies
    [x <= y] and its failure implies [y <= x]. *)
Definition insertion_sort (before : Q -> Q -> bool)
  (before_true : forall x y, before x y = true -> (x <= y)%Q)
  (before_false : forall x y, before x y = false -> (y <= x)%Q) : NpSort.
Proof.
  assert (Hperm : forall a i l,
             Permutation (insert_index before a i l) (i :: l)).
  { intros a i l. induction l as [| j rest IH]; cbn [insert_index].
    - apply Permutation_refl.
    - destruct (before (prob_at a i) (prob_at a j)).
      + apply Permutation_refl.
      + apply (perm_trans (perm_skip j IH)). apply perm_swap. }
  assert (Hsorted : forall a i l,
             StronglySorted (sorts_before a) l ->
             StronglySorted (sorts_before a) (insert_index before a i l)).
  { intros a i l Hl.
    induction Hl as [| j rest Hrest IH Hj]; cbn [insert_index].
    - constructor; constructor.
    - destruct (before (prob_at a i) (prob_at a j)) eqn:E.
      + apply before_true in E.
        constructor; [now constructor |].
        constructor; [exact E |].
        eapply Forall_impl; [| exact Hj]. intros x Hx.
        unfold sorts_before in *. eapply Qle_trans; eassumption.
      + apply before_false in E. constructor; [exact IH |].
        apply (Permutation_Forall (Permutation_sym (Hperm a i rest))).
        constructor; [exact E | exact Hj]. }
  assert (Hfold : forall a l acc,
             StronglySorted (sorts_before a) acc ->
             StronglySorted (sorts_before a)
               (fold_left (fun sorted i => insert_index before a i sorted)
                          l acc) /\
             Permutation
               (fold_left (fun sorted i => insert_index before a i sorted)
                          l acc)
               (acc ++ l)).
  { intros a l. induction l as [| i rest IH]; intros acc Hs; cbn [fold_left].
    - split; [exact Hs |]. rewrite app_nil_r. apply Permutation_refl.
    - destruct (IH (insert_index before a i acc) (Hsorted a i acc Hs))
        as [Hs' Hp'].
      split; [exact Hs' |].
      apply (perm_trans Hp').
      apply (perm_trans (Permutation_app_tail rest (Hperm a i acc))).
      cbn [app]. apply Permutation_middle. }
  refine {| argsort := insertion_argsort before |}.
  - intros a. apply (Hfold a (seq 0 (length a)) []). constructor.
  - intros a. apply (Hfold a (seq 0 (length a)) []). constructor.
Defined.

(** The stable sort: the instance the concrete runs are evaluated with. *)
#[export] Instance stable_argsort : NpSort.
Proof.
  apply (insertion_sort strictly_less); unfold strictly_less; intros x y H.
  - apply negb_true_iff in H. apply Qlt_le_weak. apply Qnot_le_lt.
    intros Hle. apply Qle_bool_iff in Hle. congruence.
  - apply negb_false_iff in H. now apply Qle_bool_iff.
Defined.

(** A sort that leaves equal values in descending index order. *)
Definition descending_ties_argsort : NpSort.
Proof.
  apply (insertion_sort less_or_equal); unfold less_or_equal; intros x y H.
  - now apply Qle_bool_iff.
  - apply Qlt_le_weak. apply Qnot_le_lt.
    intros Hle. apply Qle_bool_iff in Hle. congruence.
Defined.

(* ------------------------------------------------------------------ *)
(** ** Library functions outside the rationals, and image input *)

(** Square root ([np.std]), cube root and the 2.4 power (inside OpenCV's
    LAB conversion). *)
Class Libm : Type := {
  np_sqrt : Q -> Q;
  cbrt : Q -> Q;
  pow24 : Q -> Q
}.

(** [cv2.imread(path)] gives [None] when the file cannot be read or decoded;
    [cv2.resize(img, (R, R))] gives an (R, R, 3) array. *)
Class Cv2 : Type := {
  raw_image : Type;
  cv2_imread : string -> option raw_image;
  cv2_resize : raw_image -> forall R : nat, sq_image R
}.

Section Features.
Context {lm : Libm}.

(** [a.std()] *)
Definition np_std (l : list Z) : Q := np_sqrt (np_var l).

(** [img.std(axis=(0,1))] *)
Definition std_axis01 (img : image) : list Q :=
  [np_std (channel ch0 img); np_std (channel ch1 img);
   np_std (channel ch2 img)].

(** The sRGB curve that [COLOR_BGR2LAB] undoes first. *)
Definition srgb_to_linear (c : Q) : Q :=
  if Qle_bool c (4045 # 100000)
  then Qred (c / (1292 # 100))
  else pow24 (Qred ((c + (55 # 1000)) / (1055 # 1000))).

Definition lab_f (t : Q) : Q :=
  if Qle_bool t (8856 # 1000000)
  then Qred ((7787 # 1000) * t + (16 # 116))
  else cbrt t.

(** [cv2.COLOR_BGR2LAB] on 8-bit data, after OpenCV's documented formulas:
    linear RGB to XYZ, X and Z divided by the white point,
    L = 116 f(Y) - 16 (903.3 Y for small Y), a = 500 (f(X) - f(Y)),
    b = 200 (f(Y) - f(Z)); stored as L * 255 / 100, a + 128, b + 128.
    OpenCV evaluates these formulas for 8-bit data in fixed point, with a
    tabulated gamma curve and cube root: away from black its result can
    differ from the formulas' by one unit. *)
Definition COLOR_BGR2LAB (p : pixel) : pixel :=
  let b := srgb_to_linear (Qred (inject_Z (ch0 p) / 255)) in
  let g := srgb_to_linear (Qred (inject_Z (ch1 p) / 255)) in
  let r := srgb_to_linear (Qred (inject_Z (ch2 p) / 255)) in
  let X := Qred (((412453 # 1000000) * r + (357580 # 1000000) * g
                  + (180423 # 1000000) * b) / (950456 # 1000000)) in
  let Y := Qred ((212671 # 1000000) * r + (715160 # 1000000) * g
                 + (72169 # 1000000) * b) in
  let Z := Qred (((19334 # 1000000) * r + (119193 # 1000000) * g
                  + (950227 # 1000000) * b) / (1088754 # 1000000)) in
  let L := if Qle_bool Y (8856 # 1000000)
           then ((9033 # 10) * Y)%Q
           else (116 * cbrt Y - 16)%Q in
  let a := (500 * (lab_f X - lab_f Y))%Q in
  let bb := (200 * (lab_f Y - lab_f Z))%Q in
  (saturate_u8 (L * 255 / 100), saturate_u8 (a + 128),
   saturate_u8 (bb + 128)).

(** The feature list built from the resized image, lines 84-106 of the
    improved file and 74-96 of the basic one (the same statements). *)
Definition image_features (img : image) : list Q :=
  (* RGB features (flattened) *)
  let rgb_img := cvtColor COLOR_BGR2RGB img in
  let features := map inject_Z (flatten rgb_img) in
  (* HSV colour space features *)
  let hsv_img := cvtColor COLOR_BGR2HSV img in
  let features := features ++ mean_axis01 hsv_img in
  let features := features ++ std_axis01 hsv_img in
  (* LAB colour space features *)
  let lab_img := cvtColor COLOR_BGR2LAB img in
  let features := features ++ mean_axis01 lab_img in
  let features := features ++ std_axis01 lab_img in
  (* Texture features using Sobel *)
  let gray := cvtGray COLOR_BGR2GRAY img in
  let sobelx := ravel (sobel_dx gray) in
  let sobely := ravel (sobel_dy gray) in
  let features :=
    features ++ [np_mean sobelx; np_std sobelx;
                 np_mean sobely; np_std sobely] in
  features.
End Features.

(** ** Length reconciliation (improved file, lines 109-117) *)

(** Python truth value of [getattr(self.scaler, 'n_features_in_', None)]:
    [None] and [0] are false. *)
Definition truthy (scaler_expected : option nat) : bool :=
  match scaler_expected with
  | None => false
  | Some w => negb (w =? 0)%nat
  end.

Definition width_of (scaler_expected : option nat) : nat :=
  match scaler_expected with None => 0%nat | Some w => w end.

(** [[
      if scaler_expected and features_array.shape[1] > scaler_expected:
          features_array = features_array[:, :scaler_expected]
      elif scaler_expected and features_array.shape[1] < scaler_expected:
          padding = np.zeros((1, scaler_expected - features_array.shape[1]))
          features_array = np.hstack([features_array, padding])
    ]] *)
Definition reconcile (scaler_expected : option nat) (features_array : list Q)
  : list Q :=
  let w := width_of scaler_expected in
  if truthy scaler_expected && (w <? length features_array)%nat
  then firstn w features_array
  else if truthy scaler_expected && (length features_array <? w)%nat
  then features_array ++ repeat 0%Q (w - length features_array)
  else features_array.

(** The second reconciliation, in the [except ValueError] branch of
    [classify_image_safe] (lines 146-151); [expected] is compared as a
    number only. *)
Definition reconcile_recovery (expected : nat) (features : list Q) : list Q :=
  if (expected <? length features)%nat
  then firstn expected features
  else if (length features <? expected)%nat
  then features ++ repeat 0%Q (expected - length features)
  else features.

(* ------------------------------------------------------------------ *)
(** ** Helpers shared by the two classes *)

Local Open Scope py_scope.

(** [self.attr.method(args)]: [AttributeError] when the attribute is still
    [None]. *)
Definition on_attr {S O A : Type} (attr : S -> option O) (f : O -> exn + A)
  : Py S A :=
  self <- get_self ;;
  match attr self with
  | None => raise (AttributeError "'NoneType' object has no attribute")
  | Some o => call (f o)
  end.

(** [self.scaler.transform(x)]; the call is logged with its argument. *)
Definition call_scaler_transform {S : Type} (scaler : S -> option Scaler)
  (x : list Q) : Py S (list Q) :=
  self <- get_self ;;
  match scaler self with
  | None => raise (AttributeError "'NoneType' object has no attribute")
  | Some s => emit (ScalerTransform x) ;;; call (scaler_transform s x)
  end.

(** A list comprehension whose element expression may raise. *)
Fixpoint for_each {S A B : Type} (f : A -> Py S B) (l : list A)
  : Py S (list B) :=
  match l with
  | [] => ret []
  | a :: rest => b <- f a ;; bs <- for_each f rest ;; ret (b :: bs)
  end.

(** [getattr(scaler, 'n_features_in_', None)] *)
Definition getattr_n_features_in_ (scaler : option Scaler) : option nat :=
  match scaler with
  | Some s => if has_n_features_in_ s then Some (fit_width s) else None
  | None => None
  end.

(** [cv2.imread] followed by the [if img is None: raise ValueError] test. *)
Definition read_image {io : Cv2} {S : Type} (image_path : string)
  : Py S raw_image :=
  match cv2_imread image_path with
  | None => raise (ValueError "Could not read image")
  | Some img => ret img
  end.

(* ------------------------------------------------------------------ *)
(** ** server/sklearn-plant-classifier.py *)

Module Basic.

Record SklearnPlantClassifier : Type := {
  model : option Model;
  pca : option PCA;
  scaler : option Scaler;
  class_names : list string
}.

Definition plant_names : list string :=
  ["Aloevera"; "Amla"; "Amruta_Balli"; "Arali"; "Ashoka"; "Ashwagandha";
   "Avacado"; "Banana"; "Basale"; "Betel"; "Betel_Nut"; "Brahmi";
   "Castor"; "Catharanthus"; "Chakte"; "Chilly"; "Citron_lime";
   "Coffee"; "Commonrue"; "Coriander"; "Curry"; "Doddpathre";
   "Drumstick"; "Ekka"; "Eucalyptus"; "Ganike"; "Ganuga"; "Gasagase";
   "Ginger"; "Globe_Amarnath"; "Guava"; "Henna"; "Hibiscus"; "Honge";
   "Insulin"; "Jackfruit"; "Jasmine"; "Kambajala"; "Kasambruga";
   "Kohlrabi"; "Lantana"; "Lemon"; "Lemongrass"; "Mango"; "Marigold";
   "Mint"; "Neem"; "Nelavembu"; "Nerale"; "Nooni"; "Onion"; "Padri";
   "Palak(Spinach)"; "Papaya"; "Parijatha"; "Pea"; "Pepper";
   "Pomegranate"; "Pumpkin"; "Raddish"; "Rose"; "Rosemary"; "Sapota";
   "Seethaashoka"; "Seethapala"; "Spinach1"; "Tamarind"; "Taro";
   "Tecoma"; "Thumbe"; "Tomato"; "Tulsi"; "Turmeric"; "Wood_sorel"]%string.

Definition M : Type -> Type := Py SklearnPlantClassifier.

Definition set_model (v : option Model) : M unit :=
  self <- get_self ;;
  set_self {| model := v; pca := pca self; scaler := scaler self;
              class_names := class_names self |}.

Definition set_pca (v : option PCA) : M unit :=
  self <- get_self ;;
  set_self {| model := model self; pca := v; scaler := scaler self;
              class_names := class_names self |}.

Definition set_scaler (v : option Scaler) : M unit :=
  self <- get_self ;;
  set_self {| model := model self; pca := pca self; scaler := v;
              class_names := class_names self |}.

(** [load_models]: the three files in order; any failure leaves
    [self.model = None]. *)
Definition load_models (dir : models_dir) : M unit :=
  try_except
    (m <- call (Best_Model_pkl dir) ;;
     set_model (Some m) ;;;
     p <- call (pca_pkl dir) ;;
     set_pca (Some p) ;;;
     s <- call (scaler_pkl dir) ;;
     set_scaler (Some s))
    (fun e => set_model None).

(** [__init__] *)
Definition __init__ (dir : models_dir) : M unit :=
  set_self {| model := None; pca := None; scaler := None;
              class_names := plant_names |} ;;;
  load_models dir.

Section Methods.
Context {lm : Libm} {io : Cv2} {np : NpSort}.

(** [extract_features] (lines 62-100): resize to 128 x 128. *)
Definition extract_features (image_path : string) : M (option (list Q)) :=
  try_except
    (img <- read_image image_path ;;
     let img := rows (cv2_resize img 128) in
     ret (Some (image_features img)))
    (fun e => ret None).

(** One entry of [top_predictions]. *)
Definition top_entry (names : list string) (probabilities : list Q)
  (idx : nat) : M pyvalue :=
  plant <- call (py_index names (Z.of_nat idx)) ;;
  p <- call (py_index probabilities (Z.of_nat idx)) ;;
  ret (PyDict [("plant", PyStr plant);
               ("confidence", PyFloat (p * 100))]%string).

(** [classify_image] (lines 102-142). *)
Definition classify_image (image_path : string) : M pyvalue :=
  self <- get_self ;;
  match model self with
  | None => ret PyNone
  | Some _ =>
    try_except
      (features <- extract_features image_path ;;
       match features with
       | None => ret PyNone
       | Some features =>
         (* Normalize features *)
         features_scaled <- call_scaler_transform scaler features ;;
         (* Apply PCA *)
         features_pca <-
           on_attr pca (fun p => pca_transform p features_scaled) ;;
         (* Get prediction and probabilities *)
         prediction <- on_attr model (fun m => predict m features_pca) ;;
         probabilities <-
           on_attr model (fun m => predict_proba m features_pca) ;;
         (* Get top 3 predictions *)
         let top := top_indices probabilities in
         self <- get_self ;;
         predicted_class <-
           call (py_index (class_names self) prediction) ;;
         confidence <- call (py_index probabilities prediction) ;;
         top_predictions <-
           for_each (top_entry (class_names self) probabilities) top ;;
         ret (PyDict [("predicted_class", PyStr predicted_class);
                      ("confidence", PyFloat (confidence * 100));
                      ("top_predictions", PyList top_predictions)]%string)
       end)
      (fun e => ret PyNone)
  end.
End Methods.

End Basic.

(* ------------------------------------------------------------------ *)
(** ** server/improved-sklearn-classifier.py *)

Module Improved.

Record ImprovedSklearnClassifier : Type := {
  model : option Model;
  pca : option PCA;
  scaler : option Scaler;
  plant_info : list (string * string)
}.

Definition M : Type -> Type := Py ImprovedSklearnClassifier.

Definition set_model (v : option Model) : M unit :=
  self <- get_self ;;
  set_self {| model := v; pca := pca self; scaler := scaler self;
              plant_info := plant_info self |}.

Definition set_pca (v : option PCA) : M unit :=
  self <- get_self ;;
  set_self {| model := model self; pca := v; scaler := scaler self;
              plant_info := plant_info self |}.

Definition set_scaler (v : option Scaler) : M unit :=
  self <- get_self ;;
  set_self {| model := model self; pca := pca self; scaler := v;
              plant_info := plant_info self |}.

Definition set_plant_info (v : list (string * string)) : M unit :=
  self <- get_self ;;
  set_self {| model := model self; pca := pca self; scaler := scaler self;
              plant_info := v |}.

(** [load_models] (lines 28-52). *)
Definition load_models (dir : models_dir) : M bool :=
  try_except
    (m <- call (Best_Model_pkl dir) ;;
     set_model (Some m) ;;;
     p <- call (pca_pkl dir) ;;
     set_pca (Some p) ;;;
     s <- call (scaler_pkl dir) ;;
     set_scaler (Some s) ;;;
     ret true)
    (fun e => set_model None ;;; ret false).

(** [load_plant_info] (lines 54-62). *)
Definition load_plant_info (dir : models_dir) : M unit :=
  try_except
    (info <- call (plant_info_trained_json dir) ;;
     set_plant_info info)
    (fun e => set_plant_info []).

(** [__init__] *)
Definition __init__ (dir : models_dir) : M unit :=
  set_self {| model := None; pca := None; scaler := None;
              plant_info := [] |} ;;;
  load_models dir ;;;
  load_plant_info dir.

Definition failure (msg : string) : pyvalue :=
  PyDict [("success", PyBool false); ("error", PyStr msg)]%string.

Section Methods.
Context {lm : Libm} {io : Cv2} {np : NpSort}.

(** [extract_features_robust] (lines 64-123): resize to 64 x 64, then
    reconcile the length with the scaler's [n_features_in_]. *)
Definition extract_features_robust (image_path : string)
  : M (option (list Q)) :=
  try_except
    (img <- read_image image_path ;;
     self <- get_self ;;
     let expected_pca_features :=
       match pca self with
       | Some p => match n_components_ p with Some n => n | None => 50%nat end
       | None => 50%nat
       end in
     let scaler_expected := getattr_n_features_in_ (scaler self) in
     let img_size := 64%nat in
     let img := rows (cv2_resize img img_size) in
     let features_array := image_features img in
     let features_array := reconcile scaler_expected features_array in
     ret (Some features_array))
    (fun e => ret None).

(** One entry of [top_predictions]. *)
Definition top_entry (names : list string) (probabilities : list Q)
  (idx : nat) : M pyvalue :=
  plant <- (if (idx <? length names)%nat
            then call (py_index names (Z.of_nat idx))
            else ret (class_label idx)) ;;
  p <- call (py_index probabilities (Z.of_nat idx)) ;;
  ret (PyDict [("plant", PyStr plant);
               ("confidence", PyFloat (p * 100))]%string).

(** The body of the inner [try] and its [except ValueError] branch
    (lines 141-152). *)
Definition scale_with_recovery (features : list Q) : M (list Q) :=
  try_except_ValueError
    (call_scaler_transform scaler features)
    (fun e =>
       emit DimensionRecovery ;;;
       self <- get_self ;;
       let expected :=
         match getattr_n_features_in_ (scaler self) with
         | Some w => w
         | None => length features
         end in
       let features := reconcile_recovery expected features in
       call_scaler_transform scaler features).

(** [classify_image_safe] (lines 125-188). *)
Definition classify_image_safe (image_path : string) : M pyvalue :=
  self <- get_self ;;
  match model self with
  | None => ret (failure "Models not loaded")
  | Some _ =>
    try_except
      (features <- extract_features_robust image_path ;;
       match features with
       | None => ret (failure "Feature extraction failed")
       | Some features =>
         (* Try to scale features - handle dimension mismatch *)
         features_scaled <- scale_with_recovery features ;;
         (* Apply PCA *)
         features_pca <-
           on_attr pca (fun p => pca_transform p features_scaled) ;;
         (* Get prediction *)
         prediction <- on_attr model (fun m => predict m features_pca) ;;
         probabilities <-
           on_attr model (fun m => predict_proba m features_pca) ;;
         (* Get class names *)
         self <- get_self ;;
         let names :=
           match model self with
           | Some {| classes_ := Some names |} => names
           | _ => map class_label (seq 0 (length probabilities))
           end in
         (* Get top predictions *)
         let top := top_indices probabilities in
         predicted_class <-
           (if prediction <? Z.of_nat (length names)
            then call (py_index names prediction)
            else ret "unknown"%string) ;;
         confidence <- call (py_index probabilities prediction) ;;
         top_predictions <- for_each (top_entry names probabilities) top ;;
         ret (PyDict [("success", PyBool true);
                      ("predicted_class", PyStr predicted_class);
                      ("confidence", PyFloat (confidence * 100));
                      ("top_predictions", PyList top_predictions);
                      ("model_type", PyStr "sklearn_improved")]%string)
       end)
      (fun e => ret (failure ("Classification failed: " ++ str e)))
  end.
End Methods.

End Improved.

(* ------------------------------------------------------------------ *)
(** ** A concrete library and a concrete models directory

    Used to run the two classes on explicit inputs. *)

(** The largest [r] in [lo, hi) with [r ^ n <= a], by bisection. *)
Fixpoint bisect_root (fuel : nat) (n a lo hi : Z) : Z :=
  match fuel with
  | O => lo
  | S fuel' =>
      if hi - lo <=? 1 then lo
      else let mid := (lo + hi) / 2 in
           if mid ^ n <=? a
           then bisect_root fuel' n a mid hi
           else bisect_root fuel' n a lo mid
  end.

Definition iroot (n a : Z) : Z :=
  bisect_root (S (Z.to_nat (Z.log2_up (a + 2)))) n a 0 (a + 1).

(** The [n]-th root of a non-negative rational, to six decimal places. *)
Definition Qroot (n : Z) (q : Q) : Q :=
  Qred (iroot n (Qfloor (q * inject_Z (10 ^ (6 * n)))) # 1000000).

#[export] Instance fixed_point_libm : Libm := {
  np_sqrt := Qroot 2;
  cbrt := Qroot 3;
  pow24 := fun q => Qroot 5 (Qred (Qpower q 12))
}.

(** Nearest-neighbour resampling: enough to give [cv2.resize] a value of
    the right shape on every input. *)
Definition nearest_resize (img : image) (R : nat) : sq_image R :=
  let h := length img in
  SqImage R (fun y x =>
               let row := nth (y * h / R) img [] in
               let w := length row in
               nth (x * w / R) row black_pixel).

Definition leaf_image : image :=
  [[(20, 200, 40); (30, 180, 60)]; [(10, 90, 20); (250, 250, 250)]].

(** A file system with two readable images: a black one and a two-colour
    one. Every other path fails to decode. *)
Definition sample_imread (image_path : string) : option image :=
  if String.eqb image_path "black.png"
  then Some (repeat (repeat black_pixel 4) 4)
  else if String.eqb image_path "leaf.jpg" then Some leaf_image
  else None.

#[export] Instance sample_cv2 : Cv2 := {
  raw_image := image;
  cv2_imread := sample_imread;
  cv2_resize := nearest_resize
}.

(** A scaler fitted on [w] columns that subtracts 1/2 from each. *)
Definition sample_scaler (w : nat) (exposes : bool) : Scaler :=
  {| fit_width := w; has_n_features_in_ := exposes;
     scale_row := map (fun q => q - (1 # 2))%Q |}.

(** A PCA that keeps the first two columns. *)
Definition sample_pca : PCA :=
  {| n_components_ := Some 2%nat; pca_transform := fun x => inr (firstn 2 x) |}.

(** A three-class model with a fixed probability row. *)
Definition sample_model (probabilities : list Q) : Model :=
  {| predict := fun _ => inr 1;
     predict_proba := fun _ => inr probabilities;
     classes_ := None |}.

(** No two classes have the same probability: the ranked list is the same
    under every [argsort]. *)
Definition sample_probabilities : list Q := [(1 # 5); (1 # 2); (3 # 10)]%Q.

Definition sample_dir (w : nat) (exposes : bool) : models_dir :=
  {| Best_Model_pkl := inr (sample_model sample_probabilities);
     pca_pkl := inr sample_pca;
     scaler_pkl := inr (sample_scaler w exposes);
     plant_info_trained_json := inl (OSError "No such file or directory") |}.


Definition fresh_improved : Improved.ImprovedSklearnClassifier :=
  {| Improved.model := None; Improved.pca := None; Improved.scaler := None;
     Improved.plant_info := [] |}.

Definition fresh_basic : Basic.SklearnPlantClassifier :=
  {| Basic.model := None; Basic.pca := None; Basic.scaler := None;
     Basic.class_names := [] |}.

(** The object [ImprovedSklearnClassifier()] builds over a directory. *)
Definition improved_over (dir : models_dir)
  : Improved.ImprovedSklearnClassifier :=
  self_after (Improved.__init__ dir fresh_improved []).

(** The object [SklearnPlantClassifier()] builds over a directory. *)
Definition basic_over (dir : models_dir) : Basic.SklearnPlantClassifier :=
  self_after (Basic.__init__ dir fresh_basic []).

(* ------------------------------------------------------------------ *)
(** ** The two classify methods, as functions of what the libraries give

    What a call computes once the object is loaded and the image is read:
    the chain PCA, predict, predict_proba, labels, written over the results
    of the library calls. The statements below relate the methods to
    these. *)

Definition sum_bind {A B : Type} (r : exn + A) (k : A -> exn + B) : exn + B :=
  match r with
  | inl e => inl e
  | inr a => k a
  end.

(** [[f(a) for a in l]] when [f] may raise: the first exception wins. *)
Fixpoint sum_map {A B : Type} (f : A -> exn + B) (l : list A)
  : exn + list B :=
  match l with
  | [] => inr []
  | a :: rest =>
      sum_bind (f a) (fun b =>
      sum_bind (sum_map f rest) (fun bs => inr (b :: bs)))
  end.

(** The class names the improved class uses:
    [getattr(self.model, 'classes_', ['class_0', ...])]. *)
Definition improved_names (m : Model) (probabilities : list Q) : list string :=
  match classes_ m with
  | Some names => names
  | None => map class_label (seq 0 (length probabilities))
  end.

(** One item of ['top_predictions'] in the improved class. *)
Definition improved_entry (names : list string) (probabilities : list Q)
  (idx : nat) : pyvalue :=
  PyDict [("plant",
           PyStr (if (idx <? length names)%nat
                  then nth idx names ""%string
                  else class_label idx));
          ("confidence", PyFloat (prob_at probabilities idx * 100))]%string.

(** Lines 154-182 of the improved file, from the scaled row on. *)
Definition improved_answer {np : NpSort} (m : Model) (pc : PCA)
  (features_scaled : list Q)
  : exn + pyvalue :=
  sum_bind (pca_transform pc features_scaled) (fun features_pca =>
  sum_bind (predict m features_pca) (fun prediction =>
  sum_bind (predict_proba m features_pca) (fun probabilities =>
  let names := improved_names m probabilities in
  sum_bind (if prediction <? Z.of_nat (length names)
            then py_index names prediction
            else inr "unknown"%string) (fun predicted_class =>
  sum_bind (py_index probabilities prediction) (fun confidence =>
  inr (PyDict [("success", PyBool true);
               ("predicted_class", PyStr predicted_class);
               ("confidence", PyFloat (confidence * 100));
               ("top_predictions",
                PyList (map (improved_entry names probabilities)
                            (top_indices probabilities)));
               ("model_type", PyStr "sklearn_improved")]%string)))))).

(** One item of ['top_predictions'] in the basic class: the label table
    is indexed without a bound test. *)
Definition basic_entry (names : list string) (probabilities : list Q)
  (idx : nat) : exn + pyvalue :=
  sum_bind (py_index names (Z.of_nat idx)) (fun plant =>
  sum_bind (py_index probabilities (Z.of_nat idx)) (fun p =>
  inr (PyDict [("plant", PyStr plant);
               ("confidence", PyFloat (p * 100))]%string))).

(** Lines 116-138 of the basic file, from the scaled row on. *)
Definition basic_answer {np : NpSort} (m : Model) (pc : PCA)
  (names : list string)
  (features_scaled : list Q) : exn + pyvalue :=
  sum_bind (pca_transform pc features_scaled) (fun features_pca =>
  sum_bind (predict m features_pca) (fun prediction =>
  sum_bind (predict_proba m features_pca) (fun probabilities =>
  sum_bind (py_index names prediction) (fun predicted_class =>
  sum_bind (py_index probabilities prediction) (fun confidence =>
  sum_bind (sum_map (basic_entry names probabilities)
                    (top_indices probabilities)) (fun top_predictions =>
  inr (PyDict [("predicted_class", PyStr predicted_class);
               ("confidence", PyFloat (confidence * 100));
               ("top_predictions", PyList top_predictions)]%string))))))).

(** What the outer [except Exception] of each class turns the chain
    into. *)
Definition improved_reply (r : exn + pyvalue) : pyvalue :=
  match r with
  | inl e => Improved.failure ("Classification failed: " ++ str e)
  | inr v => v
  end.

Definition basic_reply (r : exn + pyvalue) : pyvalue :=
  match r with
  | inl e => PyNone
  | inr v => v
  end.

(** A computation that, on the object [self], gives [r] and touches
    neither the object nor the log. *)
Definition runs_to {S A : Type} (self : S) (m : Py S A) (r : exn + A) : Prop :=
  forall log, m self log = Outcome r self log.

(* ------------------------------------------------------------------ *)
(** ** inference_script.py *)

Module Inference.

(** The values [json.dumps] prints for this script. *)
#[local] Unset Elimination Schemes.
Inductive json : Type :=
  | JNull
  | JBool (b : bool)
  | JInt (n : Z)
  | JFloat (q : Q)
  | JStr (s : string)
  | JList (l : list json)
  | JDict (items : list (string * json)).
#[local] Set Elimination Schemes.

(** A loaded Keras model: [model.predict(x, verbose=0)] gives one
    probability row per image of the batch. *)
Record KerasModel (tensor : Type) : Type := {
  keras_predict : tensor -> exn + list (list Q);
  input_shape : json;
  output_shape : json
}.

(** TensorFlow, PIL and the file system, as far as the script calls
    them. *)
Class Tf : Type := {
  tensor : Type;
  pil_image : Type;
  load_model : string -> exn + KerasModel tensor;
  readlines : string -> exn + list string;
  strip : string -> string;
  Image_open : string -> exn + pil_image;
  mode : pil_image -> string;
  convert_RGB : pil_image -> exn + pil_image;
  resize : pil_image -> nat -> exn + pil_image;
  img_to_array : pil_image -> exn + tensor;
  expand_dims : tensor -> exn + tensor;
  divide : tensor -> Q -> exn + tensor
}.

Notation "x <~ m ;; k" := (sum_bind m (fun x => k))
  (at level 61, m at next level, right associativity).

(** [except Exception as e: raise Exception(prefix + str(e))] *)
Definition reraise {A : Type} (prefix : string) (r : exn + A) : exn + A :=
  match r with
  | inl e => inl (OtherError (prefix ++ str e))
  | inr a => inr a
  end.

(** [np.argmax] from the second entry on: [best] is the first index of the
    largest value seen. *)
Fixpoint argmax_from (best : nat) (best_value : Q) (i : nat) (l : list Q)
  : nat :=
  match l with
  | [] => best
  | v :: rest =>
      if Qle_bool v best_value
      then argmax_from best best_value (S i) rest
      else argmax_from i v (S i) rest
  end.

(** [np.argmax(a)]: the first index of the maximum; [ValueError] on an
    empty array. *)
Definition np_argmax (a : list Q) : exn + nat :=
  match a with
  | [] => inl (ValueError "attempt to get argmax of an empty sequence")
  | v :: rest => inr (argmax_from 0 v 1 rest)
  end.

(** [a[start:]] as Python slices: a negative [start] counts from the end,
    and the bounds are clamped. *)
Definition slice_from {A : Type} (start : Z) (a : list A) : list A :=
  let n := Z.of_nat (length a) in
  let i := if start <? 0 then Z.max 0 (n + start) else Z.min start n in
  skipn (Z.to_nat i) a.

(** [np.argsort(p)[-top_k:][::-1]] *)
Definition top_k_indices {np : NpSort} (top_k : Z) (probabilities : list Q)
  : list nat :=
  rev (slice_from (- top_k) (argsort probabilities)).

Section Script.
Context {tf : Tf} {np : NpSort}.

(** [load_model_and_classes] (lines 15-25) *)
Definition load_model_and_classes (model_path classes_path : string)
  : exn + (KerasModel tensor * list string) :=
  reraise "Failed to load model: "
    (model <~ load_model model_path ;;
     lines <~ readlines classes_path ;;
     let class_names := map strip lines in
     inr (model, class_names)).

(** [preprocess_image] (lines 27-47) *)
Definition preprocess_image (image_path : string) (img_size : nat)
  : exn + tensor :=
  reraise "Failed to preprocess image: "
    (img <~ Image_open image_path ;;
     img <~ (if negb (String.eqb (mode img) "RGB")
             then convert_RGB img
             else inr img) ;;
     img <~ resize img img_size ;;
     img_array <~ img_to_array img ;;
     img_array <~ expand_dims img_array ;;
     img_array <~ divide img_array 255 ;;
     inr img_array).

(** One item of ['top_predictions']. *)
Definition top_k_entry (class_names : list string) (probabilities : list Q)
  (idx : nat) : exn + json :=
  class <~ py_index class_names (Z.of_nat idx) ;;
  confidence <~ py_index probabilities (Z.of_nat idx) ;;
  inr (JDict [("class", JStr class); ("confidence", JFloat confidence);
              ("index", JInt (Z.of_nat idx))]%string).

(** The body of the [try] of [predict_plant] (lines 54-93). *)
Definition predict_plant_body (image_path model_path classes_path : string)
  (top_k : Z) : exn + json :=
  loaded <~ load_model_and_classes model_path classes_path ;;
  let model := fst loaded in
  let class_names := snd loaded in
  img_array <~ preprocess_image image_path 128 ;;
  predictions <~ keras_predict model img_array ;;
  predicted_probabilities <~ py_index predictions 0 ;;
  predicted_class_idx <~ np_argmax predicted_probabilities ;;
  predicted_class <~ py_index class_names (Z.of_nat predicted_class_idx) ;;
  confidence <~
    py_index predicted_probabilities (Z.of_nat predicted_class_idx) ;;
  top_k_predictions <~
    sum_map (top_k_entry class_names predicted_probabilities)
            (top_k_indices top_k predicted_probabilities) ;;
  inr (JDict [("success", JBool true);
              ("predicted_class", JStr predicted_class);
              ("confidence", JFloat confidence);
              ("top_predictions", JList top_k_predictions);
              ("total_classes", JInt (Z.of_nat (length class_names)));
              ("model_info",
               JDict [("input_shape", input_shape model);
                      ("output_shape", output_shape model)])]%string).

(** The dict of the [except] branch (lines 96-102). *)
Definition failure (e : exn) : json :=
  JDict [("success", JBool false); ("error", JStr (str e));
         ("predicted_class", JNull); ("confidence", JFloat 0);
         ("top_predictions", JList [])]%string.

(** [predict_plant] (lines 49-102) *)
Definition predict_plant (image_path model_path classes_path : string)
  (top_k : Z) : json :=
  match predict_plant_body image_path model_path classes_path top_k with
  | inr result => result
  | inl e => failure e
  end.
End Script.

End Inference.


(** A model that predicts index [k] with the probability row [p]. *)
Definition sample_model_at (k : Z) (p : list Q) : Model :=
  {| predict := fun _ => inr k;
     predict_proba := fun _ => inr p;
     classes_ := None |}.

Definition loaded_improved (m : Model) (pc : PCA) (s : Scaler)
  : Improved.ImprovedSklearnClassifier :=
  {| Improved.model := Some m; Improved.pca := Some pc;
     Improved.scaler := Some s; Improved.plant_info := [] |}.

Definition loaded_basic (m : Model) (pc : PCA) (s : Scaler)
  : Basic.SklearnPlantClassifier :=
  {| Basic.model := Some m; Basic.pca := Some pc; Basic.scaler := Some s;
     Basic.class_names := Basic.plant_names |}.

(** The width of the row the basic class extracts. *)
Definition basic_width : nat := (3 * 128 * 128 + 6 + 6 + 4)%nat.

Definition black_raw : image := repeat (repeat black_pixel 4) 4.

(* ------------------------------------------------------------------ *)
(** ** A concrete TensorFlow and file system for the inference script *)

Definition is_space (c : ascii) : bool :=
  let n := nat_of_ascii c in
  (n =? 32)%nat || ((9 <=? n)%nat && (n <=? 13)%nat).

Fixpoint drop_spaces (l : list ascii) : list ascii :=
  match l with
  | c :: rest => if is_space c then drop_spaces rest else l
  | [] => []
  end.

(** [str.strip()] on ASCII text. *)
Definition ascii_strip (s : string) : string :=
  string_of_list_ascii
    (rev (drop_spaces (rev (drop_spaces (list_ascii_of_string s))))).

Definition newline : string := String "010"%char EmptyString.

Definition sample_keras : Inference.KerasModel (list Q) :=
  {| Inference.keras_predict := fun _ => inr [[(1 # 5); (1 # 2); (3 # 10)]%Q];
     Inference.input_shape :=
       Inference.JList [Inference.JNull; Inference.JInt 128;
                        Inference.JInt 128; Inference.JInt 3];
     Inference.output_shape :=
       Inference.JList [Inference.JNull; Inference.JInt 3] |}.

(** One model file, a classes file of three lines and one of a single
    line, one image. *)
#[export] Instance sample_tf : Inference.Tf := {
  Inference.tensor := list Q;
  Inference.pil_image := list Q;
  Inference.load_model := fun path =>
    if String.eqb path "model.h5" then inr sample_keras
    else inl (OSError "No file or directory found");
  Inference.readlines := fun path =>
    if String.eqb path "classes.txt"
    then inr [("turmeric" ++ newline)%string; ("neem" ++ newline)%string;
              "ginger"%string]
    else if String.eqb path "short.txt"
         then inr [("turmeric" ++ newline)%string]
         else inl (OSError "No such file or directory");
  Inference.strip := ascii_strip;
  Inference.Image_open := fun path =>
    if String.eqb path "leaf.jpg" then inr [51; 102; 255]%Q
    else inl (OSError "No such file or directory");
  Inference.mode := fun _ => "RGB"%string;
  Inference.convert_RGB := fun img => inr img;
  Inference.resize := fun img _ => inr img;
  Inference.img_to_array := fun img => inr img;
  Inference.expand_dims := fun a => inr a;
  Inference.divide := fun a d => inr (map (fun q => Qred (q / d)) a)
}.

(* ------------------------------------------------------------------ *)
(** ** Predicates used in the statements *)

(** A computation that leaves [self] as it found it. *)
Definition readonly {S A : Type} (m : Py S A) : Prop :=
  forall self log, self_after (m self log) = self.

(** A computation that logs nothing. *)
Definition silent {S A : Type} (m : Py S A) : Prop :=
  forall self log, log_after (m self log) = log.








(** The last 16 entries of the feature vector of a black image. *)
Definition black_tail : list Q :=
  [0; 0; 0;  0; 0; 0;  0; 128; 128;  0; 0; 0;  0; 0; 0; 0]%Q.

(* ================================================================== *)
(** * Properties *)

Unset Implicit Arguments.

(** ** The method monad *)

Section MonadLaws.
Context {S : Type}.

Lemma readonly_ret {A} (a : A) : readonly (S := S) (ret a).
Proof. intros self log. reflexivity. Qed.

Lemma readonly_raise {A} (e : exn) : readonly (S := S) (A := A) (raise e).
Proof. intros self log. reflexivity. Qed.

Lemma readonly_call {A} (r : exn + A) : readonly (S := S) (call r).
Proof. intros self log. reflexivity. Qed.

Lemma readonly_get_self : readonly (S := S) get_self.
Proof. intros self log. reflexivity. Qed.

Lemma readonly_emit (ev : event) : readonly (S := S) (emit ev).
Proof. intros self log. reflexivity. Qed.

Lemma readonly_bind {A B} (m : Py S A) (k : A -> Py S B) :
  readonly m -> (forall a, readonly (k a)) -> readonly (bind m k).
Proof.
  intros Hm Hk self log. unfold bind.
  destruct (result (m self log)) as [e | a]; cbn.
  - apply Hm.
  - rewrite Hk. apply Hm.
Qed.

Lemma readonly_try_except {A} (m : Py S A) (h : exn -> Py S A) :
  readonly m -> (forall e, readonly (h e)) -> readonly (try_except m h).
Proof.
  intros Hm Hh self log. unfold try_except.
  destruct (result (m self log)) as [e | a]; cbn.
  - rewrite Hh. apply Hm.
  - apply Hm.
Qed.

Lemma readonly_try_except_ValueError {A} (m : Py S A) (h : exn -> Py S A) :
  readonly m -> (forall e, readonly (h e)) ->
  readonly (try_except_ValueError m h).
Proof.
  intros Hm Hh. apply readonly_try_except; [exact Hm |].
  intros e. destruct (is_ValueError e); [apply Hh | apply readonly_raise].
Qed.

Lemma readonly_on_attr {O A} (attr : S -> option O) (f : O -> exn + A) :
  readonly (on_attr attr f).
Proof.
  intros self log. unfold on_attr, bind, get_self; cbn.
  destruct (attr self); reflexivity.
Qed.

Lemma readonly_call_scaler_transform (attr : S -> option Scaler) x :
  readonly (call_scaler_transform attr x).
Proof.
  intros self log. unfold call_scaler_transform, bind, get_self; cbn.
  destruct (attr self); reflexivity.
Qed.

Lemma readonly_for_each {A B} (f : A -> Py S B) (l : list A) :
  (forall a, readonly (f a)) -> readonly (for_each f l).
Proof.
  intros Hf. induction l as [| a rest IH]; cbn [for_each].
  - apply readonly_ret.
  - apply readonly_bind; [apply Hf |]. intros b.
    apply readonly_bind; [exact IH |]. intros bs. apply readonly_ret.
Qed.

Lemma readonly_read_image {io : Cv2} (image_path : string) :
  readonly (S := S) (read_image image_path).
Proof.
  unfold read_image.
  destruct (cv2_imread image_path); [apply readonly_ret | apply readonly_raise].
Qed.

Lemma silent_ret {A} (a : A) : silent (S := S) (ret a).
Proof. intros self log. reflexivity. Qed.

Lemma silent_raise {A} (e : exn) : silent (S := S) (A := A) (raise e).
Proof. intros self log. reflexivity. Qed.

Lemma silent_call {A} (r : exn + A) : silent (S := S) (call r).
Proof. intros self log. reflexivity. Qed.

Lemma silent_get_self : silent (S := S) get_self.
Proof. intros self log. reflexivity. Qed.

Lemma silent_bind {A B} (m : Py S A) (k : A -> Py S B) :
  silent m -> (forall a, silent (k a)) -> silent (bind m k).
Proof.
  intros Hm Hk self log. unfold bind.
  destruct (result (m self log)) as [e | a]; cbn.
  - apply Hm.
  - rewrite Hk. apply Hm.
Qed.

Lemma silent_try_except {A} (m : Py S A) (h : exn -> Py S A) :
  silent m -> (forall e, silent (h e)) -> silent (try_except m h).
Proof.
  intros Hm Hh self log. unfold try_except.
  destruct (result (m self log)) as [e | a]; cbn.
  - rewrite Hh. apply Hm.
  - apply Hm.
Qed.

Lemma silent_on_attr {O A} (attr : S -> option O) (f : O -> exn + A) :
  silent (on_attr attr f).
Proof.
  intros self log. unfold on_attr, bind, get_self; cbn.
  destruct (attr self); reflexivity.
Qed.

Lemma silent_for_each {A B} (f : A -> Py S B) (l : list A) :
  (forall a, silent (f a)) -> silent (for_each f l).
Proof.
  intros Hf. induction l as [| a rest IH]; cbn [for_each].
  - apply silent_ret.
  - apply silent_bind; [apply Hf |]. intros b.
    apply silent_bind; [exact IH |]. intros bs. apply silent_ret.
Qed.

Lemma silent_read_image {io : Cv2} (image_path : string) :
  silent (S := S) (read_image image_path).
Proof.
  unfold read_image.
  destruct (cv2_imread image_path); [apply silent_ret | apply silent_raise].
Qed.



(** The log after [bind m k] when the continuation is silent. *)
Lemma log_bind_silent {A B} (m : Py S A) (k : A -> Py S B) self log :
  (forall a, silent (k a)) ->
  log_after (bind m k self log) = log_after (m self log).
Proof.
  intros Hk. unfold bind.
  destruct (result (m self log)); cbn; [reflexivity | apply Hk].
Qed.

Lemma log_try_except_silent {A} (m : Py S A) (h : exn -> Py S A) self log :
  (forall e, silent (h e)) ->
  log_after (try_except m h self log) = log_after (m self log).
Proof.
  intros Hh. unfold try_except.
  destruct (result (m self log)); cbn; [apply Hh | reflexivity].
Qed.

(** Running a [bind] or a [try] whose first part is known. *)
Lemma bind_run_returned {A B} (m : Py S A) (k : A -> Py S B)
  self log a self' log' :
  m self log = Outcome (inr a) self' log' ->
  bind m k self log = k a self' log'.
Proof. intros H. unfold bind. rewrite H. reflexivity. Qed.




End MonadLaws.

Create HintDb readonly.
Create HintDb silent.

#[local] Hint Resolve readonly_ret readonly_raise readonly_call
  readonly_get_self readonly_emit readonly_on_attr
  readonly_call_scaler_transform readonly_read_image : readonly.
#[local] Hint Resolve silent_ret silent_raise silent_call silent_get_self
  silent_on_attr silent_read_image : silent.

(** Breaks a goal [readonly m] along the structure of [m]. *)
Ltac readonly_steps :=
  repeat first
    [ progress auto with readonly
    | apply readonly_bind
    | apply readonly_try_except
    | apply readonly_try_except_ValueError
    | apply readonly_for_each
    | match goal with
      | |- forall _, _ => intro
      | |- readonly (match ?x with _ => _ end) => destruct x
      end ].

(** Breaks a goal [silent m] along the structure of [m]. *)
Ltac silent_steps :=
  repeat first
    [ progress auto with silent
    | apply silent_bind
    | apply silent_try_except
    | apply silent_for_each
    | match goal with
      | |- forall _, _ => intro
      | |- silent (match ?x with _ => _ end) => destruct x
      end ].

(* ------------------------------------------------------------------ *)
(** ** Shape of the feature vector *)

Lemma length_flat_map_uniform {A B : Type} (f : A -> list B) (l : list A)
  (n : nat) :
  Forall (fun a => length (f a) = n) l ->
  length (flat_map f l) = (length l * n)%nat.
Proof.
  induction 1 as [| a rest Ha _ IH]; cbn [flat_map length].
  - reflexivity.
  - rewrite length_app, Ha, IH. lia.
Qed.

Lemma rows_height {R : nat} (img : sq_image R) : length (rows img) = R.
Proof. unfold rows. now rewrite length_map, length_seq. Qed.

Lemma rows_width {R : nat} (img : sq_image R) :
  Forall (fun row => length row = R) (rows img).
Proof.
  unfold rows. apply Forall_forall. intros row Hin.
  apply in_map_iff in Hin. destruct Hin as (y & <- & _).
  now rewrite length_map, length_seq.
Qed.

Lemma cvtColor_shape (f : pixel -> pixel) (img : image) (R : nat) :
  length img = R -> Forall (fun row => length row = R) img ->
  length (cvtColor f img) = R /\
  Forall (fun row => length row = R) (cvtColor f img).
Proof.
  intros Hh Hw. unfold cvtColor. split.
  - now rewrite length_map.
  - apply Forall_forall. intros row Hin. apply in_map_iff in Hin.
    destruct Hin as (row0 & <- & Hin0). rewrite length_map.
    rewrite Forall_forall in Hw. now apply Hw.
Qed.

(** [flatten] of an (R, R, 3) array has 3 R^2 entries. *)
Lemma length_flatten (img : image) (R : nat) :
  length img = R -> Forall (fun row => length row = R) img ->
  length (flatten img) = (3 * R * R)%nat.
Proof.
  intros Hh Hw. unfold flatten.
  rewrite length_flat_map_uniform with (n := (R * 3)%nat).
  - rewrite Hh. lia.
  - eapply Forall_impl; [| exact Hw]. intros row Hrow. cbn beta in *.
    rewrite length_flat_map_uniform with (n := 3%nat).
    + now rewrite Hrow.
    + apply Forall_forall. reflexivity.
Qed.

Lemma length_image_features {lm : Libm} (R : nat) (img : sq_image R) :
  length (image_features (rows img)) = (3 * R * R + 6 + 6 + 4)%nat.
Proof.
  unfold image_features. rewrite !length_app, length_map.
  destruct (cvtColor_shape COLOR_BGR2RGB (rows img) R
              (rows_height img) (rows_width img)) as [Hh Hw].
  rewrite (length_flatten _ R Hh Hw). cbn [length mean_axis01 std_axis01]. lia.
Qed.

(* ------------------------------------------------------------------ *)
(** ** Length reconciliation *)

Lemma reconcile_falsy (se : option nat) (v : list Q) :
  truthy se = false -> reconcile se v = v.
Proof. intros H. unfold reconcile. now rewrite H. Qed.

(** For a width that counts as true, the reconciled vector is the first
    [w] entries, then as many zeros as are missing. *)
Lemma reconcile_truthy (se : option nat) (v : list Q) :
  truthy se = true ->
  reconcile se v
  = firstn (width_of se) v ++ repeat 0%Q (width_of se - length v).
Proof.
  intros H. unfold reconcile. rewrite H. cbn [andb].
  destruct (width_of se <? length v)%nat eqn:E1.
  - apply Nat.ltb_lt in E1.
    replace (width_of se - length v)%nat with 0%nat by lia.
    cbn [repeat]. now rewrite app_nil_r.
  - apply Nat.ltb_ge in E1. rewrite (firstn_all2 v E1).
    destruct (length v <? width_of se)%nat eqn:E2.
    + reflexivity.
    + apply Nat.ltb_ge in E2.
      replace (width_of se - length v)%nat with 0%nat by lia.
      cbn [repeat]. now rewrite app_nil_r.
Qed.

Lemma reconcile_length (se : option nat) (v : list Q) :
  truthy se = true -> length (reconcile se v) = width_of se.
Proof.
  intros H. rewrite (reconcile_truthy se v H).
  rewrite length_app, length_firstn, repeat_length. lia.
Qed.

Lemma reconcile_same_length (se : option nat) (v : list Q) :
  length v = width_of se -> reconcile se v = v.
Proof.
  intros H. unfold reconcile. rewrite H, Nat.ltb_irrefl, !andb_false_r.
  reflexivity.
Qed.

Lemma truthy_Some (w : nat) : (0 < w)%nat -> truthy (Some w) = true.
Proof. intros H. cbn. destruct w; [lia | reflexivity]. Qed.


(* ------------------------------------------------------------------ *)
(** ** Ranking *)

Section SortedLists.
Context {A : Type}.




Lemma StronglySorted_app_cross (R : A -> A -> Prop) (l1 l2 : list A) :
  StronglySorted R (l1 ++ l2) ->
  forall x y, In x l1 -> In y l2 -> R x y.
Proof.
  induction l1 as [| a rest IH]; cbn [app]; intros Hs x y Hx Hy.
  - destruct Hx.
  - apply StronglySorted_inv in Hs. destruct Hs as [Hrest Ha].
    destruct Hx as [<- | Hx].
    + rewrite Forall_forall in Ha. apply Ha. apply in_or_app. now right.
    + now apply IH.
Qed.
End SortedLists.

Section AnyArgsort.
Context {np : NpSort}.

Lemma argsort_sorted (p : list Q) :
  StronglySorted (sorts_before p) (argsort p).
Proof. apply argsort_ascends. Qed.

Lemma argsort_perm (p : list Q) : Permutation (argsort p) (seq 0 (length p)).
Proof. apply argsort_permutes. Qed.

Lemma length_argsort (p : list Q) : length (argsort p) = length p.
Proof. rewrite (Permutation_length (argsort_perm p)). apply length_seq. Qed.

Lemma length_top_indices (p : list Q) :
  length (top_indices p) = Nat.min 3 (length p).
Proof.
  unfold top_indices, last_n.
  rewrite length_rev, length_skipn, length_argsort. lia.
Qed.


Lemma top_indices_in_range (p : list Q) :
  Forall (fun i => (i < length p)%nat) (top_indices p).
Proof.
  apply Forall_forall. intros i Hin. unfold top_indices, last_n in Hin.
  apply in_rev in Hin.
  assert (Hin' : In i (argsort p)).
  { rewrite <- (firstn_skipn (length (argsort p) - 3) (argsort p)).
    apply in_or_app. now right. }
  apply (Permutation_in _ (argsort_perm p)) in Hin'.
  apply in_seq in Hin'. lia.
Qed.

End AnyArgsort.

(* ------------------------------------------------------------------ *)
(** ** Shapes of the returned values *)




(* ------------------------------------------------------------------ *)
(** ** The improved class *)

Section ImprovedFacts.
Context {lm : Libm} {io : Cv2} {np : NpSort}.
Import Improved.

Lemma improved_extract_readonly (image_path : string) :
  readonly (extract_features_robust image_path).
Proof. unfold extract_features_robust. readonly_steps. Qed.

Lemma improved_extract_silent (image_path : string) :
  silent (extract_features_robust image_path).
Proof. unfold extract_features_robust. silent_steps. Qed.

(** On a readable image: the reconciled feature row. *)
Lemma improved_extract_readable image_path img self log :
  cv2_imread image_path = Some img ->
  extract_features_robust image_path self log
  = Outcome
      (inr (Some (reconcile (getattr_n_features_in_ (scaler self))
                            (image_features (rows (cv2_resize img 64))))))
      self log.
Proof.
  intros H. unfold extract_features_robust, try_except, bind, read_image.
  rewrite H. reflexivity.
Qed.

(** On an unreadable image: [None]. *)
Lemma improved_extract_unreadable image_path self log :
  cv2_imread image_path = None ->
  extract_features_robust image_path self log = Outcome (inr None) self log.
Proof.
  intros H. unfold extract_features_robust, try_except, bind, read_image.
  rewrite H. reflexivity.
Qed.

Lemma scale_with_recovery_readonly features :
  readonly (scale_with_recovery features).
Proof. unfold scale_with_recovery. readonly_steps. Qed.

(** The width fits: one call, no recovery. *)
Lemma scale_with_recovery_fits features s self log :
  scaler self = Some s -> length features = fit_width s ->
  scale_with_recovery features self log
  = Outcome (inr (scale_row s features)) self
            (log ++ [ScalerTransform features]).
Proof.
  intros Hs Hlen.
  unfold scale_with_recovery, try_except_ValueError, try_except,
    call_scaler_transform, bind, get_self, emit, call, scaler_transform.
  cbn [result self_after log_after]. rewrite Hs.
  cbn [result self_after log_after]. rewrite Hlen, Nat.eqb_refl.
  reflexivity.
Qed.


(** No scaler: [AttributeError], nothing logged. *)
Lemma scale_with_recovery_no_scaler features self log :
  scaler self = None ->
  scale_with_recovery features self log
  = Outcome (inl (AttributeError "'NoneType' object has no attribute"))
            self log.
Proof.
  intros Hs.
  unfold scale_with_recovery, try_except_ValueError, try_except,
    call_scaler_transform, bind, get_self.
  cbn [result self_after log_after]. rewrite Hs. reflexivity.
Qed.

Lemma improved_top_entry_readonly names probabilities idx :
  readonly (top_entry names probabilities idx).
Proof. unfold top_entry. readonly_steps. Qed.

Lemma improved_top_entry_silent names probabilities idx :
  silent (top_entry names probabilities idx).
Proof. unfold top_entry. silent_steps. Qed.

Lemma improved_classify_readonly (image_path : string) :
  readonly (classify_image_safe image_path).
Proof.
  unfold classify_image_safe.
  readonly_steps;
    first [ apply improved_extract_readonly
          | apply scale_with_recovery_readonly
          | apply improved_top_entry_readonly ].
Qed.


Lemma improved_classify_unloaded image_path self log :
  model self = None ->
  classify_image_safe image_path self log
  = Outcome (inr (failure "Models not loaded")) self log.
Proof.
  intros H. unfold classify_image_safe.
  unfold bind at 1. cbn [get_self result self_after log_after].
  rewrite H. reflexivity.
Qed.
End ImprovedFacts.

Section ImprovedClassify.
Context {lm : Libm} {io : Cv2} {np : NpSort}.
Import Improved.

(** What [classify_image_safe] logs is what the scaling step logs. *)
Lemma improved_classify_log image_path img m self log :
  model self = Some m -> cv2_imread image_path = Some img ->
  log_after (classify_image_safe image_path self log)
  = log_after
      (scale_with_recovery
         (reconcile (getattr_n_features_in_ (scaler self))
                    (image_features (rows (cv2_resize img 64))))
         self log).
Proof.
  intros Hm Himg. unfold classify_image_safe.
  unfold bind at 1. cbn [get_self result self_after log_after].
  rewrite Hm. rewrite log_try_except_silent by (intros e; apply silent_ret).
  unfold bind at 1.
  rewrite (improved_extract_readable image_path img self log Himg).
  cbn [result self_after log_after].
  apply log_bind_silent. intros fs.
  silent_steps; apply improved_top_entry_silent.
Qed.

Lemma improved_classify_log_unreadable image_path self log :
  cv2_imread image_path = None ->
  log_after (classify_image_safe image_path self log) = log.
Proof.
  intros Himg. unfold classify_image_safe.
  unfold bind at 1. cbn [get_self result self_after log_after].
  destruct (model self); [| reflexivity].
  rewrite log_try_except_silent by (intros e; apply silent_ret).
  unfold bind at 1.
  rewrite (improved_extract_unreadable image_path self log Himg).
  reflexivity.
Qed.




Lemma improved_init_loaded dir m p s self log :
  Best_Model_pkl dir = inr m -> pca_pkl dir = inr p ->
  scaler_pkl dir = inr s ->
  let self' := self_after (__init__ dir self log) in
  model self' = Some m /\ pca self' = Some p /\ scaler self' = Some s.
Proof.
  intros Hm Hp Hs.
  destruct dir as [bm pp sp [e4 | info]];
    cbn [Best_Model_pkl pca_pkl scaler_pkl] in Hm, Hp, Hs; subst bm pp sp;
    repeat split; reflexivity.
Qed.
End ImprovedClassify.

(* ------------------------------------------------------------------ *)
(** ** The basic class *)

Section BasicFacts.
Context {lm : Libm} {io : Cv2} {np : NpSort}.
Import Basic.

Lemma basic_extract_readonly (image_path : string) :
  readonly (extract_features image_path).
Proof. unfold extract_features. readonly_steps. Qed.

Lemma basic_extract_readable image_path img self log :
  cv2_imread image_path = Some img ->
  extract_features image_path self log
  = Outcome (inr (Some (image_features (rows (cv2_resize img 128)))))
            self log.
Proof.
  intros H. unfold extract_features, try_except, bind, read_image.
  rewrite H. reflexivity.
Qed.

Lemma basic_extract_unreadable image_path self log :
  cv2_imread image_path = None ->
  extract_features image_path self log = Outcome (inr None) self log.
Proof.
  intros H. unfold extract_features, try_except, bind, read_image.
  rewrite H. reflexivity.
Qed.

Lemma basic_top_entry_readonly names probabilities idx :
  readonly (top_entry names probabilities idx).
Proof. unfold top_entry. readonly_steps. Qed.

Lemma basic_top_entry_silent names probabilities idx :
  silent (top_entry names probabilities idx).
Proof. unfold top_entry. silent_steps. Qed.

Lemma basic_classify_readonly (image_path : string) :
  readonly (classify_image image_path).
Proof.
  unfold classify_image.
  readonly_steps;
    first [ apply basic_extract_readonly | apply basic_top_entry_readonly ].
Qed.




(** With a scaler loaded and a readable image, the scaler is called
    once, on the feature row as extracted. *)
Lemma basic_classify_log image_path img m s self log :
  model self = Some m -> scaler self = Some s ->
  cv2_imread image_path = Some img ->
  log_after (classify_image image_path self log)
  = log ++ [ScalerTransform (image_features (rows (cv2_resize img 128)))].
Proof.
  intros Hm Hs Himg. unfold classify_image.
  unfold bind at 1. cbn [get_self result self_after log_after].
  rewrite Hm. rewrite log_try_except_silent by (intros e; apply silent_ret).
  unfold bind at 1.
  rewrite (basic_extract_readable image_path img self log Himg).
  cbn [result self_after log_after].
  rewrite log_bind_silent.
  - unfold call_scaler_transform, bind, get_self, emit, call.
    cbn [result self_after log_after]. rewrite Hs. reflexivity.
  - intros fs. silent_steps; apply basic_top_entry_silent.
Qed.



Lemma basic_init_loaded dir m p s self log :
  Best_Model_pkl dir = inr m -> pca_pkl dir = inr p ->
  scaler_pkl dir = inr s ->
  let self' := self_after (__init__ dir self log) in
  model self' = Some m /\ pca self' = Some p /\ scaler self' = Some s.
Proof.
  intros Hm Hp Hs.
  destruct dir as [bm pp sp info];
    cbn [Best_Model_pkl pca_pkl scaler_pkl] in Hm, Hp, Hs; subst bm pp sp;
    repeat split; reflexivity.
Qed.
End BasicFacts.

(* ================================================================== *)
(** * The claims *)

(** C5. Length reconciliation never reorders features. Whatever the
    expected width, the result is a prefix of the source followed by zeros
    only. For a width [w > 0]: when the source is longer, the result is its
    first [w] entries and only trailing entries are dropped; when it is
    shorter, the result is the whole source followed by [w - len] zeros. In
    particular a source of 1200 entries reconciled to width 1000 keeps its
    first 1000 entries as they are and loses its last 200. *)
Theorem reconcile_never_reorders (se : option nat) (v : list Q) :
  let r := reconcile se v in
  let w := width_of se in
  (exists k n, r = firstn k v ++ repeat 0%Q n) /\
  (truthy se = true -> (w < length v)%nat ->
   r = firstn w v /\ v = r ++ skipn w v) /\
  (truthy se = true -> (length v < w)%nat ->
   r = v ++ repeat 0%Q (w - length v)) /\
  (se = Some 1000%nat -> length v = 1200%nat ->
   firstn 1000 r = firstn 1000 v /\ length r = 1000%nat /\
   v = r ++ skipn 1000 v /\ length (skipn 1000 v) = 200%nat).
Proof.
  intros r w. subst r w. split; [| split; [| split]].
  - destruct (truthy se) eqn:E.
    + exists (width_of se), (width_of se - length v)%nat.
      now apply reconcile_truthy.
    + exists (length v), 0%nat. rewrite (reconcile_falsy se v E).
      cbn [repeat]. now rewrite firstn_all, app_nil_r.
  - intros Ht Hlt. rewrite (reconcile_truthy se v Ht).
    replace (width_of se - length v)%nat with 0%nat by lia.
    cbn [repeat]. rewrite app_nil_r. split; [reflexivity |].
    now rewrite firstn_skipn.
  - intros Ht Hlt. rewrite (reconcile_truthy se v Ht).
    rewrite firstn_all2 by lia. reflexivity.
  - intros -> Hlen.
    assert (E : reconcile (Some 1000%nat) v = firstn 1000 v).
    { rewrite reconcile_truthy by reflexivity.
      cbn [width_of]. rewrite Hlen.
      replace (1000 - 1200)%nat with 0%nat by lia.
      cbn [repeat]. now rewrite app_nil_r. }
    rewrite E. repeat split.
    + apply firstn_firstn.
    + rewrite length_firstn, Hlen. lia.
    + now rewrite firstn_skipn.
    + rewrite length_skipn, Hlen. lia.
Qed.

(** C7. [reconcile] is idempotent: reconciling twice to the same width
    gives what reconciling once gives, and a vector that already has the
    expected width comes back unchanged. *)
Theorem reconcile_idempotent (se : option nat) (v : list Q) :
  reconcile se (reconcile se v) = reconcile se v /\
  reconcile (Some (length v)) v = v.
Proof.
  split.
  - destruct (truthy se) eqn:E.
    + apply reconcile_same_length. now apply reconcile_length.
    + now rewrite !(reconcile_falsy se) by exact E.
  - now apply reconcile_same_length.
Qed.



(** C6. For every decodable image, feature extraction produces a vector
    of length 3 R^2 + 6 + 6 + 4, R being the resize resolution: flattened
    RGB pixels, HSV means then standard deviations, LAB means then standard
    deviations, then mean and standard deviation of the horizontal and of
    the vertical Sobel response. The basic class resizes to 128 and returns
    49168 entries; the improved class resizes to 64 and builds 12304
    entries (the row it then reconciles); so the two differ in length on
    the same image. *)
Theorem feature_vector_layout {lm : Libm} {io : Cv2}
  (image_path : string) (raw : raw_image)
  (self_b : Basic.SklearnPlantClassifier)
  (self_i : Improved.ImprovedSklearnClassifier) (log : list event) :
  cv2_imread image_path = Some raw ->
  let f128 := image_features (rows (cv2_resize raw 128)) in
  let f64 := image_features (rows (cv2_resize raw 64)) in
  (forall (R : nat) (img : sq_image R),
      let px := rows img in
      let sobelx := ravel (sobel_dx (cvtGray COLOR_BGR2GRAY px)) in
      let sobely := ravel (sobel_dy (cvtGray COLOR_BGR2GRAY px)) in
      let rgb := map inject_Z (flatten (cvtColor COLOR_BGR2RGB px)) in
      let hsv := cvtColor COLOR_BGR2HSV px in
      let lab := cvtColor COLOR_BGR2LAB px in
      image_features px
      = ((((rgb ++ mean_axis01 hsv) ++ std_axis01 hsv)
          ++ mean_axis01 lab) ++ std_axis01 lab)
        ++ [np_mean sobelx; np_std sobelx; np_mean sobely; np_std sobely]
      /\ length rgb = (3 * R * R)%nat
      /\ length (image_features px) = (3 * R * R + 6 + 6 + 4)%nat)
  /\ result (Basic.extract_features image_path self_b log) = inr (Some f128)
  /\ Z.of_nat (length f128) = 49168
  /\ result (Improved.extract_features_robust image_path self_i log)
     = inr (Some (reconcile (getattr_n_features_in_ (Improved.scaler self_i))
                            f64))
  /\ Z.of_nat (length f64) = 12304
  /\ length f128 <> length f64.
Proof.
  intros Himg f128 f64.
  assert (L128 : Z.of_nat (length f128) = 49168).
  { subst f128. rewrite length_image_features. reflexivity. }
  assert (L64 : Z.of_nat (length f64) = 12304).
  { subst f64. rewrite length_image_features. reflexivity. }
  split; [| split; [| split; [| split; [| split]]]].
  - intros R img px sobelx sobely rgb hsv lab. split; [reflexivity |].
    split.
    + subst rgb px. rewrite length_map.
      destruct (cvtColor_shape COLOR_BGR2RGB (rows img) R
                  (rows_height img) (rows_width img)) as [Hh Hw].
      apply (length_flatten _ R Hh Hw).
    + apply length_image_features.
  - now rewrite (basic_extract_readable image_path raw self_b log Himg).
  - exact L128.
  - now rewrite (improved_extract_readable image_path raw self_i log Himg).
  - exact L64.
  - intros E. rewrite E in L128. rewrite L128 in L64. discriminate L64.
Qed.

(** C3, as amended. For an all-black 64 x 64 image the last 16 entries of
    the feature vector are zero except the means of the LAB a and b
    channels, which are 128 (8-bit LAB stores a and b with an offset of
    128): HSV means and deviations 0, LAB means (0, 128, 128), LAB
    deviations 0, Sobel means and deviations 0. *)
Theorem black_image_tail {lm : Libm} :
  np_sqrt 0%Q = 0%Q ->
  last_n 16 (image_features (rows (black_image 64))) = black_tail.
Proof.
  destruct lm as [sqrt cb pw]. cbn [np_sqrt]. intros Hsqrt.
  vm_compute. rewrite !Hsqrt. reflexivity.
Qed.

(** C3, counterexample. On the all-black 64 x 64 image the last 16
    entries are not all zero: entries 7 and 8 of the tail (the LAB a and b
    means) are 128. *)
Lemma black_image_tail_not_zero :
  let tail := last_n 16 (image_features (rows (black_image 64))) in
  nth 7 tail 0%Q = 128%Q /\ nth 8 tail 0%Q = 128%Q /\
  ~ Forall (fun q => (q == 0)%Q) tail.
Proof.
  assert (E : last_n 16 (image_features (rows (black_image 64)))
              = black_tail) by (vm_compute; reflexivity).
  cbv zeta. rewrite E. split; [reflexivity |]. split; [reflexivity |].
  intros H. rewrite Forall_forall in H.
  assert (H128 : (128 == 0)%Q) by (apply H; cbn; tauto).
  discriminate H128.
Qed.

(** With a loaded scaler that exposes a non-zero width, the scaler is
    called once, on the reconciled row, which fits. *)
Lemma improved_classify_log_exposed {lm : Libm} {io : Cv2} {np : NpSort}
  (image_path : string) (img : raw_image) (m : Model) (s : Scaler)
  (self : Improved.ImprovedSklearnClassifier) (log : list event) :
  Improved.model self = Some m ->
  Improved.scaler self = Some s ->
  has_n_features_in_ s = true ->
  (0 < fit_width s)%nat ->
  cv2_imread image_path = Some img ->
  let fed := reconcile (Some (fit_width s))
                       (image_features (rows (cv2_resize img 64))) in
  log_after (Improved.classify_image_safe image_path self log)
  = log ++ [ScalerTransform fed]
  /\ length fed = fit_width s.
Proof.
  intros Hm Hs Hexp Hpos Himg fed.
  assert (Hse : getattr_n_features_in_ (Improved.scaler self)
                = Some (fit_width s)).
  { rewrite Hs. cbn. now rewrite Hexp. }
  assert (Hlen : length fed = fit_width s).
  { apply (reconcile_length (Some (fit_width s))). now apply truthy_Some. }
  split; [| exact Hlen].
  rewrite (improved_classify_log image_path img m self log Hm Himg).
  rewrite Hse. fold fed.
  now rewrite (scale_with_recovery_fits fed s self log Hs Hlen).
Qed.

(** C1, as amended. In the improved class, for every readable image and a
    loaded scaler that exposes a non-zero [n_features_in_ = W], the scaler's
    [transform] is called exactly once, on the extracted row cut to its
    first W entries when longer and followed by zeros when shorter; that
    row has length exactly W. (The basic class does not reconcile: it calls
    the scaler on the row as extracted.) *)
Theorem improved_scaler_input_width {lm : Libm} {io : Cv2} {np : NpSort}
  (image_path : string) (img : raw_image) (m : Model) (s : Scaler)
  (self : Improved.ImprovedSklearnClassifier) (log : list event) :
  Improved.model self = Some m ->
  Improved.scaler self = Some s ->
  has_n_features_in_ s = true ->
  (0 < fit_width s)%nat ->
  cv2_imread image_path = Some img ->
  let W := fit_width s in
  let extracted := image_features (rows (cv2_resize img 64)) in
  let fed := firstn W extracted ++ repeat 0%Q (W - length extracted) in
  log_after (Improved.classify_image_safe image_path self log)
  = log ++ [ScalerTransform fed]
  /\ length fed = W.
Proof.
  intros Hm Hs Hexp Hpos Himg W extracted fed.
  assert (Hfed : reconcile (Some W) extracted = fed).
  { apply reconcile_truthy. now apply truthy_Some. }
  destruct (improved_classify_log_exposed image_path img m s self log
              Hm Hs Hexp Hpos Himg) as [Hlog Hlen].
  fold W extracted in Hlog, Hlen. rewrite Hfed in Hlog, Hlen.
  split; [exact Hlog | exact Hlen].
Qed.

(** C1, counterexample. The basic class over a scaler fitted on 1000
    columns: on a readable image the scaler is called on a row of 49168
    entries, not 1000. *)
Lemma basic_scaler_input_not_reconciled :
  let self := basic_over (sample_dir 1000 true) in
  getattr_n_features_in_ (Basic.scaler self) = Some 1000%nat /\
  exists x,
    log_after (Basic.classify_image "leaf.jpg" self []) = [ScalerTransform x]
    /\ Z.of_nat (length x) = 49168.
Proof.
  cbv zeta. split; [reflexivity |].
  pose proof (basic_classify_log (io := sample_cv2) "leaf.jpg"
                leaf_image (sample_model sample_probabilities)
                (sample_scaler 1000 true)
                (basic_over (sample_dir 1000 true)) []
                eq_refl eq_refl eq_refl) as Hlog.
  eexists. split; [exact Hlog |].
  rewrite length_image_features. reflexivity.
Qed.

(** C8. When the loaded scaler exposes its fitted width (a positive
    [n_features_in_]), the recovery branch of [classify_image_safe] is never
    entered: whatever the image path and the rest of the object, the log of
    a call holds no [DimensionRecovery], and every row the scaler is called
    on passes its width check. *)
Theorem recovery_branch_unreachable {lm : Libm} {io : Cv2} {np : NpSort}
  (image_path : string) (s : Scaler)
  (self : Improved.ImprovedSklearnClassifier) :
  Improved.scaler self = Some s ->
  has_n_features_in_ s = true ->
  (0 < fit_width s)%nat ->
  let out := log_after (Improved.classify_image_safe image_path self []) in
  ~ In DimensionRecovery out /\
  (forall x, In (ScalerTransform x) out ->
             scaler_transform s x = inr (scale_row s x)).
Proof.
  intros Hs Hexp Hpos out.
  assert (Hout : out = [] \/
                 exists x, out = [ScalerTransform x] /\
                           length x = fit_width s).
  { subst out. destruct (Improved.model self) as [m |] eqn:Hm.
    - destruct (cv2_imread image_path) as [img |] eqn:Himg.
      + right. eexists.
        destruct (improved_classify_log_exposed image_path img m s self []
                    Hm Hs Hexp Hpos Himg) as [Hlog Hlen].
        split; [exact Hlog | exact Hlen].
      + left. now apply improved_classify_log_unreadable.
    - left. now rewrite (improved_classify_unloaded image_path self [] Hm). }
  destruct Hout as [-> | (x0 & -> & Hlen)].
  - split; [intros [] | intros x []].
  - split.
    + intros [H | []]. discriminate H.
    + intros x [H | []]. injection H as <-.
      unfold scaler_transform. now rewrite Hlen, Nat.eqb_refl.
Qed.





(** C9. A classify call leaves the object as it was: after
    [classify_image_safe] (improved class) and after [classify_image]
    (basic class), returning a result or a failure, [self] is the object
    the call started from, so its model, PCA, scaler and label table
    ([plant_info], [class_names]) are those it had. *)
Theorem classify_leaves_state_unchanged {lm : Libm} {io : Cv2} {np : NpSort}
  (image_path : string) :
  (forall self log,
      let self' :=
        self_after (Improved.classify_image_safe image_path self log) in
      self' = self /\
      Improved.model self' = Improved.model self /\
      Improved.pca self' = Improved.pca self /\
      Improved.scaler self' = Improved.scaler self /\
      Improved.plant_info self' = Improved.plant_info self) /\
  (forall self log,
      let self' := self_after (Basic.classify_image image_path self log) in
      self' = self /\
      Basic.model self' = Basic.model self /\
      Basic.pca self' = Basic.pca self /\
      Basic.scaler self' = Basic.scaler self /\
      Basic.class_names self' = Basic.class_names self).
Proof.
  split; intros self log self'; subst self'.
  - rewrite (improved_classify_readonly image_path self log).
    repeat split; reflexivity.
  - rewrite (basic_classify_readonly image_path self log).
    repeat split; reflexivity.
Qed.

(* ================================================================== *)
(** * The theorems at concrete inputs *)

(** [improved_scaler_input_width] on the two-colour image, with a scaler
    fitted on 20 columns that exposes its width. *)
Lemma improved_scaler_input_width_witness :
  let self := improved_over (sample_dir 20 true) in
  exists fed,
    log_after (Improved.classify_image_safe "leaf.jpg" self [])
    = [ScalerTransform fed] /\
    length fed = 20%nat.
Proof.
  cbv zeta. eexists.
  exact (improved_scaler_input_width
           (lm := fixed_point_libm) (io := sample_cv2)
           "leaf.jpg" leaf_image (sample_model sample_probabilities)
           (sample_scaler 20 true) (improved_over (sample_dir 20 true)) []
           eq_refl eq_refl eq_refl (Nat.lt_0_succ 19) eq_refl).
Defined.

(** [black_image_tail] with the fixed-point library. *)
Lemma black_image_tail_witness :
  np_sqrt (Libm := fixed_point_libm) 0%Q = 0%Q /\
  last_n 16 (image_features (rows (black_image 64))) = black_tail.
Proof.
  split; [reflexivity |].
  apply (black_image_tail (lm := fixed_point_libm)). reflexivity.
Defined.


(** [reconcile_never_reorders] on the row 0, 1, ..., 1199 and width
    1000. *)
Lemma reconcile_never_reorders_witness :
  let v := map inject_Z (coords 1200) in
  let r := reconcile (Some 1000%nat) v in
  length v = 1200%nat /\
  firstn 1000 r = firstn 1000 v /\ length r = 1000%nat /\
  v = r ++ skipn 1000 v /\ length (skipn 1000 v) = 200%nat.
Proof.
  cbv zeta.
  destruct (reconcile_never_reorders (Some 1000%nat)
              (map inject_Z (coords 1200))) as (_ & _ & _ & H).
  split; [reflexivity |]. apply H; reflexivity.
Defined.

(** [feature_vector_layout] on the two-colour image. *)
Lemma feature_vector_layout_witness :
  cv2_imread "leaf.jpg" = Some leaf_image /\
  exists f128 f64,
    result (Basic.extract_features "leaf.jpg" fresh_basic [])
    = inr (Some f128) /\
    Z.of_nat (length f128) = 49168 /\
    result (Improved.extract_features_robust "leaf.jpg" fresh_improved [])
    = inr (Some f64) /\
    Z.of_nat (length f64) = 12304 /\
    length f128 <> length f64.
Proof.
  split; [reflexivity |].
  destruct (feature_vector_layout (lm := fixed_point_libm) (io := sample_cv2)
              "leaf.jpg" leaf_image
              fresh_basic fresh_improved [] eq_refl)
    as (_ & Hb & Lb & Hi & Li & Hne).
  do 2 eexists.
  split; [exact Hb |]. split; [exact Lb |].
  split; [exact Hi |]. split; [exact Li | exact Hne].
Defined.

(** [recovery_branch_unreachable] with a scaler fitted on 20 columns that
    exposes its width. *)
Lemma recovery_branch_unreachable_witness :
  let self := improved_over (sample_dir 20 true) in
  Improved.scaler self = Some (sample_scaler 20 true) /\
  ~ In DimensionRecovery
       (log_after (Improved.classify_image_safe "leaf.jpg" self [])).
Proof.
  cbv zeta. split; [reflexivity |].
  exact (proj1 (recovery_branch_unreachable
                  (lm := fixed_point_libm) (io := sample_cv2)
                  "leaf.jpg" (sample_scaler 20 true)
                  (improved_over (sample_dir 20 true))
                  eq_refl eq_refl (Nat.lt_0_succ 19))).
Defined.


(* ================================================================== *)
(** * Further properties of the two classes *)

(** ** Running a method on a fixed object *)

Section RunsTo.
Context {S : Type} (self : S).

Lemma runs_ret {A} (a : A) : runs_to self (ret a) (inr a).
Proof. intros log. reflexivity. Qed.

Lemma runs_call {A} (r : exn + A) : runs_to self (call r) r.
Proof. intros log. reflexivity. Qed.

Lemma runs_on_attr {O A} (attr : S -> option O) (f : O -> exn + A) (o : O) :
  attr self = Some o -> runs_to self (on_attr attr f) (f o).
Proof.
  intros H log. unfold on_attr, bind, get_self.
  cbn [result self_after log_after]. rewrite H. reflexivity.
Qed.

Lemma runs_bind {A B} (m : Py S A) (k : A -> Py S B) r g :
  runs_to self m r -> (forall a, runs_to self (k a) (g a)) ->
  runs_to self (bind m k) (sum_bind r g).
Proof.
  intros Hm Hk log. pose proof (Hm log) as E. unfold bind. rewrite E.
  cbn [result self_after log_after]. destruct r as [e | a]; cbn [sum_bind].
  - reflexivity.
  - apply Hk.
Qed.

Lemma runs_bind_returned {A B} (m : Py S A) (k : A -> Py S B) a r :
  runs_to self m (inr a) -> runs_to self (k a) r ->
  runs_to self (bind m k) r.
Proof.
  intros Hm Hk log. pose proof (Hm log) as E. unfold bind. rewrite E.
  cbn [result self_after log_after]. apply Hk.
Qed.

Lemma runs_get_self_bind {B} (k : S -> Py S B) r :
  runs_to self (k self) r -> runs_to self (bind get_self k) r.
Proof. intros Hk log. unfold bind, get_self. cbn. apply Hk. Qed.

Lemma runs_for_each {A B} (f : A -> Py S B) (g : A -> exn + B) (l : list A) :
  (forall a, In a l -> runs_to self (f a) (g a)) ->
  runs_to self (for_each f l) (sum_map g l).
Proof.
  induction l as [| a rest IH]; intros Hf; cbn [for_each sum_map].
  - apply runs_ret.
  - apply runs_bind; [apply Hf; now left |]. intros b.
    apply runs_bind; [apply IH; intros a' Ha'; apply Hf; now right |].
    intros bs. apply runs_ret.
Qed.

(** [try] around a computation whose outcome is known. *)
Lemma try_except_run {A} (m : Py S A) (h : exn -> Py S A) log r self' log' :
  m self log = Outcome r self' log' ->
  try_except m h self log
  = match r with
    | inl e => h e self' log'
    | inr a => Outcome (inr a) self' log'
    end.
Proof. intros H. unfold try_except. rewrite H. destruct r; reflexivity. Qed.
End RunsTo.

Lemma sum_map_returns {A B : Type} (f : A -> exn + B) (g : A -> B)
  (l : list A) :
  (forall a, In a l -> f a = inr (g a)) -> sum_map f l = inr (map g l).
Proof.
  induction l as [| a rest IH]; intros Hf; cbn [sum_map map].
  - reflexivity.
  - rewrite (Hf a) by now left. cbn [sum_bind].
    rewrite IH by (intros a' Ha'; apply Hf; now right). reflexivity.
Qed.

(** ** Indexing as Python does *)

Lemma py_index_in_range {A : Type} (l : list A) (i : nat) (d : A) :
  (i < length l)%nat -> py_index l (Z.of_nat i) = inr (nth i l d).
Proof.
  intros Hi. unfold py_index.
  destruct (Z.of_nat i <? 0) eqn:E0; [apply Z.ltb_lt in E0; lia |].
  rewrite E0. cbn [orb].
  destruct (Z.of_nat (length l) <=? Z.of_nat i) eqn:E1;
    [apply Z.leb_le in E1; lia |].
  rewrite Nat2Z.id.
  destruct (nth_error l i) as [a |] eqn:E.
  - now rewrite (nth_error_nth l i d E).
  - apply nth_error_None in E. lia.
Qed.

Lemma py_index_Z_in_range {A : Type} (l : list A) (k : Z) (d : A) :
  0 <= k < Z.of_nat (length l) ->
  py_index l k = inr (nth (Z.to_nat k) l d).
Proof.
  intros Hk. rewrite <- (Z2Nat.id k) at 1 by lia.
  apply py_index_in_range. lia.
Qed.

(** An index at or past the end raises [IndexError]. *)
Lemma py_index_past_end {A : Type} (l : list A) (k : Z) :
  Z.of_nat (length l) <= k ->
  py_index l k = inl (IndexError "index out of range").
Proof.
  intros Hk. unfold py_index.
  destruct (k <? 0) eqn:E0; [apply Z.ltb_lt in E0; lia |].
  rewrite E0. cbn [orb].
  destruct (Z.of_nat (length l) <=? k) eqn:E1; [reflexivity |].
  apply Z.leb_gt in E1. lia.
Qed.

Lemma runs_for_each_returns {S A B : Type} (self : S) (f : A -> Py S B)
  (g : A -> B) (l : list A) :
  (forall a, In a l -> runs_to self (f a) (inr (g a))) ->
  runs_to self (for_each f l) (inr (map g l)).
Proof.
  induction l as [| a rest IH]; intros Hf; cbn [for_each map].
  - apply runs_ret.
  - apply (runs_bind_returned self _ _ (g a)); [apply Hf; now left |].
    apply (runs_bind_returned self _ _ (map g rest));
      [apply IH; intros a' Ha'; apply Hf; now right |].
    apply runs_ret.
Qed.

(** ** The improved class on a loaded object *)

Section ImprovedLoaded.
Context {lm : Libm} {io : Cv2} {np : NpSort}.
Import Improved.

Lemma improved_top_entry_runs self names probabilities idx :
  (idx < length probabilities)%nat ->
  runs_to self (top_entry names probabilities idx)
          (inr (improved_entry names probabilities idx)).
Proof.
  intros Hidx. unfold top_entry, improved_entry.
  apply (runs_bind_returned self _ _
           (if (idx <? length names)%nat then nth idx names ""%string
            else class_label idx)).
  - destruct (idx <? length names)%nat eqn:E.
    + apply Nat.ltb_lt in E.
      rewrite (py_index_in_range names idx ""%string E). apply runs_call.
    + apply runs_ret.
  - apply (runs_bind_returned self _ _ (prob_at probabilities idx)).
    + unfold prob_at.
      rewrite (py_index_in_range probabilities idx 0%Q Hidx). apply runs_call.
    + apply runs_ret.
Qed.

(** From the scaled row on, the method computes [improved_answer]. *)
Lemma improved_chain_runs self m pc features_scaled :
  model self = Some m -> pca self = Some pc ->
  runs_to self
    (features_pca <-
       on_attr pca (fun p => pca_transform p features_scaled) ;;
     prediction <- on_attr model (fun m => predict m features_pca) ;;
     probabilities <-
       on_attr model (fun m => predict_proba m features_pca) ;;
     self <- get_self ;;
     let names :=
       match model self with
       | Some {| classes_ := Some names |} => names
       | _ => map class_label (seq 0 (length probabilities))
       end in
     let top := top_indices probabilities in
     predicted_class <-
       (if prediction <? Z.of_nat (length names)
        then call (py_index names prediction)
        else ret "unknown"%string) ;;
     confidence <- call (py_index probabilities prediction) ;;
     top_predictions <- for_each (top_entry names probabilities) top ;;
     ret (PyDict [("success", PyBool true);
                  ("predicted_class", PyStr predicted_class);
                  ("confidence", PyFloat (confidence * 100));
                  ("top_predictions", PyList top_predictions);
                  ("model_type", PyStr "sklearn_improved")]%string))
    (improved_answer m pc features_scaled).
Proof.
  intros Hm Hpca. unfold improved_answer.
  apply runs_bind; [exact (runs_on_attr self pca _ pc Hpca) |].
  intros features_pca.
  apply runs_bind; [exact (runs_on_attr self model _ m Hm) |].
  intros prediction.
  apply runs_bind; [exact (runs_on_attr self model _ m Hm) |].
  intros probabilities.
  apply runs_get_self_bind. rewrite Hm. cbv zeta.
  replace (match m with
           | {| classes_ := Some names |} => names
           | {| classes_ := None |} =>
               map class_label (seq 0 (length probabilities))
           end)
    with (improved_names m probabilities)
    by (destruct m as [pr pp [names |]]; reflexivity).
  set (names := improved_names m probabilities).
  apply runs_bind.
  { destruct (prediction <? Z.of_nat (length names));
      [apply runs_call | apply runs_ret]. }
  intros predicted_class.
  apply runs_bind; [apply runs_call |]. intros confidence.
  apply (runs_bind_returned self _ _
           (map (improved_entry names probabilities)
                (top_indices probabilities))).
  - apply runs_for_each_returns. intros idx Hidx.
    apply improved_top_entry_runs.
    pose proof (top_indices_in_range probabilities) as Hr.
    rewrite Forall_forall in Hr. now apply Hr.
  - apply runs_ret.
Qed.

(** A loaded object, a readable image and a row that fits the scaler:
    one scaler call, then [improved_answer]. *)
Lemma improved_classify_loaded image_path img m pc s self log :
  model self = Some m -> pca self = Some pc -> scaler self = Some s ->
  cv2_imread image_path = Some img ->
  let fed := reconcile (getattr_n_features_in_ (Some s))
                       (image_features (rows (cv2_resize img 64))) in
  length fed = fit_width s ->
  classify_image_safe image_path self log
  = Outcome (inr (improved_reply (improved_answer m pc (scale_row s fed))))
            self (log ++ [ScalerTransform fed]).
Proof.
  intros Hm Hpca Hs Himg fed Hlen.
  assert (Hext : extract_features_robust image_path self log
                 = Outcome (inr (Some fed)) self log).
  { rewrite (improved_extract_readable image_path img self log Himg).
    rewrite Hs. reflexivity. }
  unfold classify_image_safe.
  rewrite (bind_run_returned get_self _ self log self self log eq_refl).
  rewrite Hm.
  erewrite try_except_run.
  2: { rewrite (bind_run_returned _ _ self log (Some fed) self log Hext).
       rewrite (bind_run_returned _ _ self log (scale_row s fed) self
                  (log ++ [ScalerTransform fed])
                  (scale_with_recovery_fits fed s self log Hs Hlen)).
       exact (improved_chain_runs self m pc (scale_row s fed) Hm Hpca
                (log ++ [ScalerTransform fed])). }
  destruct (improved_answer m pc (scale_row s fed)); reflexivity.
Qed.
End ImprovedLoaded.

(** ** The basic class on a loaded object *)

Section BasicLoaded.
Context {lm : Libm} {io : Cv2} {np : NpSort}.
Import Basic.

Lemma basic_top_entry_runs self names probabilities idx :
  runs_to self (top_entry names probabilities idx)
          (basic_entry names probabilities idx).
Proof.
  unfold top_entry, basic_entry.
  apply runs_bind; [apply runs_call |]. intros plant.
  apply runs_bind; [apply runs_call |]. intros p. apply runs_ret.
Qed.

(** From the scaled row on, the method computes [basic_answer]. *)
Lemma basic_chain_runs self m pc features_scaled :
  model self = Some m -> pca self = Some pc ->
  runs_to self
    (features_pca <-
       on_attr pca (fun p => pca_transform p features_scaled) ;;
     prediction <- on_attr model (fun m => predict m features_pca) ;;
     probabilities <-
       on_attr model (fun m => predict_proba m features_pca) ;;
     let top := top_indices probabilities in
     self <- get_self ;;
     predicted_class <- call (py_index (class_names self) prediction) ;;
     confidence <- call (py_index probabilities prediction) ;;
     top_predictions <-
       for_each (top_entry (class_names self) probabilities) top ;;
     ret (PyDict [("predicted_class", PyStr predicted_class);
                  ("confidence", PyFloat (confidence * 100));
                  ("top_predictions", PyList top_predictions)]%string))
    (basic_answer m pc (class_names self) features_scaled).
Proof.
  intros Hm Hpca. unfold basic_answer.
  apply runs_bind; [exact (runs_on_attr self pca _ pc Hpca) |].
  intros features_pca.
  apply runs_bind; [exact (runs_on_attr self model _ m Hm) |].
  intros prediction.
  apply runs_bind; [exact (runs_on_attr self model _ m Hm) |].
  intros probabilities. cbv zeta.
  apply runs_get_self_bind.
  apply runs_bind; [apply runs_call |]. intros predicted_class.
  apply runs_bind; [apply runs_call |]. intros confidence.
  apply runs_bind.
  - apply runs_for_each. intros idx _. apply basic_top_entry_runs.
  - intros top_predictions. apply runs_ret.
Qed.

(** A loaded object and a readable image: one scaler call on the row as
    extracted, then [basic_answer]; every exception becomes [None]. *)
Lemma basic_classify_loaded image_path img m pc s self log :
  model self = Some m -> pca self = Some pc -> scaler self = Some s ->
  cv2_imread image_path = Some img ->
  let features := image_features (rows (cv2_resize img 128)) in
  classify_image image_path self log
  = Outcome
      (inr (basic_reply
              (sum_bind (scaler_transform s features)
                        (basic_answer m pc (class_names self)))))
      self (log ++ [ScalerTransform features]).
Proof.
  intros Hm Hpca Hs Himg features.
  unfold classify_image.
  rewrite (bind_run_returned get_self _ self log self self log eq_refl).
  rewrite Hm.
  erewrite (try_except_run self _ _ log
              (sum_bind (scaler_transform s features)
                        (basic_answer m pc (class_names self)))
              self (log ++ [ScalerTransform features])).
  2: { rewrite (bind_run_returned _ _ self log (Some features) self log
                  (basic_extract_readable image_path img self log Himg)).
       unfold bind at 1.
       assert (Hcall : call_scaler_transform scaler features self log
                       = Outcome (scaler_transform s features) self
                                 (log ++ [ScalerTransform features])).
       { unfold call_scaler_transform, bind, get_self, emit, call.
         cbn [result self_after log_after]. rewrite Hs. reflexivity. }
       rewrite Hcall. cbn [result self_after log_after].
       destruct (scaler_transform s features) as [e | fs]; cbn [sum_bind].
       - reflexivity.
       - exact (basic_chain_runs self m pc fs Hm Hpca
                  (log ++ [ScalerTransform features])). }
  destruct (sum_bind (scaler_transform s features)
                     (basic_answer m pc (class_names self))); reflexivity.
Qed.
End BasicLoaded.

(* ================================================================== *)
(** * Further theorems *)

(** X1. After [__init__], in both classes, a model that is present
    comes with its PCA and its scaler: when [self.model] is not [None], the
    three attributes hold what the three files gave. *)
Theorem init_model_implies_all_loaded (dir : models_dir) :
  (forall self0 log m,
      let self := self_after (Improved.__init__ dir self0 log) in
      Improved.model self = Some m ->
      Best_Model_pkl dir = inr m /\
      exists p s, pca_pkl dir = inr p /\ scaler_pkl dir = inr s /\
                  Improved.pca self = Some p /\
                  Improved.scaler self = Some s) /\
  (forall self0 log m,
      let self := self_after (Basic.__init__ dir self0 log) in
      Basic.model self = Some m ->
      Best_Model_pkl dir = inr m /\
      exists p s, pca_pkl dir = inr p /\ scaler_pkl dir = inr s /\
                  Basic.pca self = Some p /\ Basic.scaler self = Some s).
Proof.
  split; intros self0 log m self Hm; subst self;
    destruct dir as [[e1 | m1] [e2 | p] [e3 | s] [e4 | info]];
    cbn in Hm; try discriminate Hm; injection Hm as <-;
    (split; [reflexivity |]); exists p, s; repeat split; reflexivity.
Qed.

(** X2. What [__init__] of the improved class leaves when a file fails:
    nothing is rolled back except the model. [self.pca] is kept once
    [Best_Model.pkl] and [pca.pkl] loaded, even if [scaler.pkl] then fails
    and the model is reset to [None]; and [plant_info] is the content of
    the JSON file, or the empty dict when it cannot be read, whatever
    happened to the three pickles. *)
Theorem improved_init_state (dir : models_dir)
  (self0 : Improved.ImprovedSklearnClassifier) (log : list event) :
  let self := self_after (Improved.__init__ dir self0 log) in
  Improved.pca self
  = match Best_Model_pkl dir, pca_pkl dir with
    | inr _, inr p => Some p
    | _, _ => None
    end /\
  Improved.scaler self
  = match Best_Model_pkl dir, pca_pkl dir, scaler_pkl dir with
    | inr _, inr _, inr s => Some s
    | _, _, _ => None
    end /\
  Improved.model self
  = match Best_Model_pkl dir, pca_pkl dir, scaler_pkl dir with
    | inr m, inr _, inr _ => Some m
    | _, _, _ => None
    end /\
  Improved.plant_info self
  = match plant_info_trained_json dir with
    | inr info => info
    | inl _ => []
    end /\
  log_after (Improved.__init__ dir self0 log) = log.
Proof.
  destruct dir as [[e1 | m1] [e2 | p] [e3 | s] [e4 | info]];
    repeat split; reflexivity.
Qed.

(** X3. The complete answer of the improved class. With the object
    loaded, the image readable, the reconciled row fitting the scaler, and
    PCA, [predict] and [predict_proba] returning, with the predicted index
    [k] inside the probability row: [classify_image_safe] calls the scaler
    once and returns the success record whose class is [names[k]] (or
    ['unknown'] when [k] is past the names), whose confidence is
    [100 * probabilities[k]], and whose top predictions are the entries of
    [np.argsort(probabilities)[-3:][::-1]] in that order, whatever order
    [np.argsort] leaves equal probabilities in. *)
Theorem improved_classify_success {lm : Libm} {io : Cv2} {np : NpSort}
  (image_path : string) (img : raw_image) (m : Model) (pc : PCA) (s : Scaler)
  (self : Improved.ImprovedSklearnClassifier) (log : list event)
  (z : list Q) (k : Z) (p : list Q) :
  Improved.model self = Some m ->
  Improved.pca self = Some pc ->
  Improved.scaler self = Some s ->
  cv2_imread image_path = Some img ->
  let fed := reconcile (getattr_n_features_in_ (Some s))
                       (image_features (rows (cv2_resize img 64))) in
  length fed = fit_width s ->
  pca_transform pc (scale_row s fed) = inr z ->
  predict m z = inr k ->
  predict_proba m z = inr p ->
  0 <= k < Z.of_nat (length p) ->
  let names := improved_names m p in
  Improved.classify_image_safe image_path self log
  = Outcome
      (inr (PyDict
              [("success", PyBool true);
               ("predicted_class",
                PyStr (if (k <? Z.of_nat (length names))%Z
                       then nth (Z.to_nat k) names ""
                       else "unknown"));
               ("confidence", PyFloat (prob_at p (Z.to_nat k) * 100));
               ("top_predictions",
                PyList (map (improved_entry names p) (top_indices p)));
               ("model_type", PyStr "sklearn_improved")]%string))
      self (log ++ [ScalerTransform fed]).
Proof.
  intros Hm Hpca Hs Himg fed Hlen Hz Hk Hp Hrange names.
  rewrite (improved_classify_loaded image_path img m pc s self log
             Hm Hpca Hs Himg Hlen).
  fold fed. unfold improved_answer.
  rewrite Hz. cbn [sum_bind]. rewrite Hk. cbn [sum_bind].
  rewrite Hp. cbn [sum_bind]. cbv zeta. fold names.
  rewrite (py_index_Z_in_range p k 0%Q Hrange). fold (prob_at p (Z.to_nat k)).
  destruct (k <? Z.of_nat (length names)) eqn:E.
  - apply Z.ltb_lt in E.
    rewrite (py_index_Z_in_range names k ""%string) by lia.
    reflexivity.
  - reflexivity.
Qed.


Lemma py_index_In {A : Type} (l : list A) (k : Z) (a : A) :
  py_index l k = inr a -> In a l.
Proof.
  unfold py_index.
  destruct (_ || _); [discriminate |].
  destruct (nth_error l _) as [a0 |] eqn:E; [| discriminate].
  intros [= <-]. eapply nth_error_In. exact E.
Qed.

Lemma class_label_not_unknown (i : nat) : class_label i <> "unknown"%string.
Proof. unfold class_label. cbn. discriminate. Qed.

(** X5. Without [classes_] on the model the label ['unknown'] is never
    returned. The default names are as many as the probabilities, so a
    predicted index past the names is past the probabilities too:
    [probabilities[prediction]] raises and the call ends in
    ['Classification failed: ...']. *)
Theorem improved_unknown_needs_classes {lm : Libm} {io : Cv2} {np : NpSort}
  (image_path : string) (img : raw_image) (m : Model) (pc : PCA) (s : Scaler)
  (self : Improved.ImprovedSklearnClassifier) (log : list event) :
  Improved.model self = Some m ->
  Improved.pca self = Some pc ->
  Improved.scaler self = Some s ->
  cv2_imread image_path = Some img ->
  let fed := reconcile (getattr_n_features_in_ (Some s))
                       (image_features (rows (cv2_resize img 64))) in
  length fed = fit_width s ->
  classes_ m = None ->
  (forall items,
      result (Improved.classify_image_safe image_path self log)
      = inr (PyDict items) ->
      dict_get items "predicted_class" <> Some (PyStr "unknown")) /\
  (forall z k p,
      pca_transform pc (scale_row s fed) = inr z ->
      predict m z = inr k -> predict_proba m z = inr p ->
      Z.of_nat (length p) <= k ->
      exists msg,
        result (Improved.classify_image_safe image_path self log)
        = inr (Improved.failure ("Classification failed: " ++ msg))).
Proof.
  intros Hm Hpca Hs Himg fed Hlen Hcl.
  rewrite (improved_classify_loaded image_path img m pc s self log
             Hm Hpca Hs Himg Hlen).
  fold fed. cbn [result]. unfold improved_answer.
  assert (Hnames : forall p, improved_names m p
                             = map class_label (seq 0 (length p))).
  { intros p. unfold improved_names. now rewrite Hcl. }
  split.
  - intros items.
    destruct (pca_transform pc (scale_row s fed)) as [e | z];
      cbn [sum_bind improved_reply];
      [intros [= <-]; cbn; discriminate |].
    destruct (predict m z) as [e | k]; cbn [sum_bind improved_reply];
      [intros [= <-]; cbn; discriminate |].
    destruct (predict_proba m z) as [e | p]; cbn [sum_bind improved_reply];
      [intros [= <-]; cbn; discriminate |].
    cbv zeta. rewrite Hnames. rewrite length_map, length_seq.
    destruct (k <? Z.of_nat (length p)) eqn:E.
    + destruct (py_index (map class_label (seq 0 (length p))) k)
        as [e | name] eqn:En; cbn [sum_bind improved_reply];
        [intros [= <-]; cbn; discriminate |].
      destruct (py_index p k) as [e | conf]; cbn [sum_bind improved_reply];
        [intros [= <-]; cbn; discriminate |].
      intros [= <-]. cbn. intros [= Hname].
      apply py_index_In in En. apply in_map_iff in En.
      destruct En as (i & Hi & _).
      apply (class_label_not_unknown i). congruence.
    + apply Z.ltb_ge in E. cbn [sum_bind].
      rewrite (py_index_past_end p k E). cbn [sum_bind improved_reply].
      intros [= <-]. cbn. discriminate.
  - intros z k p Hz Hk Hp Hpast.
    rewrite Hz. cbn [sum_bind]. rewrite Hk. cbn [sum_bind].
    rewrite Hp. cbn [sum_bind]. cbv zeta.
    rewrite Hnames, length_map, length_seq.
    destruct (k <? Z.of_nat (length p)) eqn:E;
      [apply Z.ltb_lt in E; lia |].
    cbn [sum_bind]. rewrite (py_index_past_end p k Hpast).
    cbn [sum_bind improved_reply]. eexists. reflexivity.
Qed.

(** X6. The complete answer of the basic class. With the object loaded,
    the image readable, the 49168-entry row fitting the scaler, the chain
    returning, and the predicted index and the top indices all inside the
    label table and the probability row: [classify_image] calls the scaler
    once and returns the dict with the class [class_names[k]], the
    confidence [100 * probabilities[k]] and the top predictions in the
    order of [np.argsort(probabilities)[-3:][::-1]], whatever order
    [np.argsort] leaves equal probabilities in. *)
Theorem basic_classify_success {lm : Libm} {io : Cv2} {np : NpSort}
  (image_path : string) (img : raw_image) (m : Model) (pc : PCA) (s : Scaler)
  (self : Basic.SklearnPlantClassifier) (log : list event)
  (z : list Q) (k : Z) (p : list Q) :
  Basic.model self = Some m ->
  Basic.pca self = Some pc ->
  Basic.scaler self = Some s ->
  cv2_imread image_path = Some img ->
  let features := image_features (rows (cv2_resize img 128)) in
  let names := Basic.class_names self in
  length features = fit_width s ->
  pca_transform pc (scale_row s features) = inr z ->
  predict m z = inr k ->
  predict_proba m z = inr p ->
  0 <= k < Z.of_nat (length p) ->
  k < Z.of_nat (length names) ->
  Forall (fun idx => (idx < length names)%nat) (top_indices p) ->
  Basic.classify_image image_path self log
  = Outcome
      (inr (PyDict
              [("predicted_class", PyStr (nth (Z.to_nat k) names ""));
               ("confidence", PyFloat (prob_at p (Z.to_nat k) * 100));
               ("top_predictions",
                PyList
                  (map (fun idx =>
                          PyDict
                            [("plant", PyStr (nth idx names ""));
                             ("confidence", PyFloat (prob_at p idx * 100))])
                       (top_indices p)))]%string))
      self (log ++ [ScalerTransform features]).
Proof.
  intros Hm Hpca Hs Himg features names Hlen Hz Hk Hp Hrange Hkn Htop.
  rewrite (basic_classify_loaded image_path img m pc s self log
             Hm Hpca Hs Himg).
  fold features names. unfold scaler_transform.
  rewrite Hlen, Nat.eqb_refl. cbn [sum_bind]. unfold basic_answer.
  rewrite Hz. cbn [sum_bind]. rewrite Hk. cbn [sum_bind].
  rewrite Hp. cbn [sum_bind].
  rewrite (py_index_Z_in_range names k ""%string) by lia. cbn [sum_bind].
  rewrite (py_index_Z_in_range p k 0%Q Hrange). cbn [sum_bind].
  fold (prob_at p (Z.to_nat k)).
  erewrite sum_map_returns.
  - cbn [sum_bind basic_reply]. reflexivity.
  - intros idx Hidx. unfold basic_entry.
    rewrite Forall_forall in Htop.
    rewrite (py_index_in_range names idx ""%string (Htop idx Hidx)).
    cbn [sum_bind].
    pose proof (top_indices_in_range p) as Hr. rewrite Forall_forall in Hr.
    rewrite (py_index_in_range p idx 0%Q (Hr idx Hidx)). reflexivity.
Qed.

Lemma sum_map_raises {A B : Type} (f : A -> exn + B) (l : list A) (a : A)
  (e : exn) :
  In a l -> f a = inl e -> exists e', sum_map f l = inl e'.
Proof.
  induction l as [| a0 rest IH]; intros Hin Hf; [destruct Hin |].
  cbn [sum_map]. destruct (f a0) as [e0 | b] eqn:E0; cbn [sum_bind].
  - now exists e0.
  - destruct Hin as [-> | Hin]; [congruence |].
    destruct (IH Hin Hf) as [e' He']. rewrite He'. now exists e'.
Qed.

(** X7. The basic class indexes its label table without a bound test.
    With everything else succeeding, a predicted index at or past the end
    of [class_names], or an index of
    [np.argsort(probabilities)[-3:][::-1]] at or past its end, makes
    [classify_image] return [None]. *)
Theorem basic_classify_outside_table {lm : Libm} {io : Cv2} {np : NpSort}
  (image_path : string) (img : raw_image) (m : Model) (pc : PCA) (s : Scaler)
  (self : Basic.SklearnPlantClassifier) (log : list event)
  (z : list Q) (k : Z) (p : list Q) :
  Basic.model self = Some m ->
  Basic.pca self = Some pc ->
  Basic.scaler self = Some s ->
  cv2_imread image_path = Some img ->
  let features := image_features (rows (cv2_resize img 128)) in
  let names := Basic.class_names self in
  pca_transform pc (scale_row s features) = inr z ->
  predict m z = inr k ->
  predict_proba m z = inr p ->
  (Z.of_nat (length names) <= k \/
   exists idx, In idx (top_indices p) /\ (length names <= idx)%nat) ->
  Basic.classify_image image_path self log
  = Outcome (inr PyNone) self (log ++ [ScalerTransform features]).
Proof.
  intros Hm Hpca Hs Himg features names Hz Hk Hp Hout.
  rewrite (basic_classify_loaded image_path img m pc s self log
             Hm Hpca Hs Himg).
  fold features names. f_equal. f_equal.
  destruct (scaler_transform s features) as [e | fs] eqn:Efs;
    cbn [sum_bind basic_reply]; [reflexivity |].
  assert (Hfs : fs = scale_row s features).
  { unfold scaler_transform in Efs.
    destruct (_ =? _)%nat; [congruence | discriminate]. }
  subst fs. unfold basic_answer.
  rewrite Hz. cbn [sum_bind]. rewrite Hk. cbn [sum_bind].
  rewrite Hp. cbn [sum_bind].
  destruct Hout as [Hpast | (idx & Hin & Hpast)].
  - now rewrite (py_index_past_end names k Hpast).
  - destruct (py_index names k) as [e | name]; cbn [sum_bind];
      [reflexivity |].
    destruct (py_index p k) as [e | conf]; cbn [sum_bind]; [reflexivity |].
    destruct (sum_map_raises (basic_entry names p) (top_indices p) idx
                (IndexError "index out of range") Hin) as [e' He'].
    + unfold basic_entry.
      rewrite (py_index_past_end names (Z.of_nat idx)) by lia. reflexivity.
    + now rewrite He'.
Qed.

Lemma nth_flat_map_uniform {A B : Type} (f : A -> list B) (l : list A)
  (n : nat) (da : A) (db : B) :
  Forall (fun a => length (f a) = n) l ->
  forall i j, (i < length l)%nat -> (j < n)%nat ->
              nth (i * n + j) (flat_map f l) db = nth j (f (nth i l da)) db.
Proof.
  induction 1 as [| a rest Ha _ IH]; intros i j Hi Hj; cbn [length] in Hi.
  - lia.
  - cbn [flat_map]. destruct i as [| i].
    + cbn [Nat.mul Nat.add nth]. apply app_nth1. lia.
    + replace (S i * n + j)%nat with (length (f a) + (i * n + j))%nat
        by (rewrite Ha; lia).
      rewrite app_nth2_plus. cbn [nth]. apply IH; lia.
Qed.

Lemma nth_rows {R : nat} (img : sq_image R) (y x : nat) :
  (y < R)%nat -> (x < R)%nat ->
  nth x (nth y (rows img) []) black_pixel = pixel_at img y x.
Proof.
  intros Hy Hx. unfold rows.
  rewrite (nth_indep _ [] (map (fun x0 => pixel_at img 0 x0) (seq 0 R)))
    by (now rewrite length_map, length_seq).
  rewrite (map_nth (fun y0 => map (fun x0 => pixel_at img y0 x0) (seq 0 R))
             (seq 0 R) 0%nat y).
  rewrite seq_nth by exact Hy. cbn [Nat.add].
  rewrite (nth_indep _ black_pixel (pixel_at img y 0))
    by (now rewrite length_map, length_seq).
  rewrite (map_nth (fun x0 => pixel_at img y x0) (seq 0 R) 0%nat x).
  now rewrite seq_nth by exact Hx.
Qed.

(** The pixel part of the feature vector, entry by entry. *)
Lemma nth_flatten_rgb {R : nat} (img : sq_image R) (y x c : nat) :
  (y < R)%nat -> (x < R)%nat -> (c < 3)%nat ->
  nth (3 * (y * R + x) + c) (flatten (cvtColor COLOR_BGR2RGB (rows img))) 0
  = nth c [ch2 (pixel_at img y x); ch1 (pixel_at img y x);
           ch0 (pixel_at img y x)] 0.
Proof.
  intros Hy Hx Hc.
  destruct (cvtColor_shape COLOR_BGR2RGB (rows img) R
              (rows_height img) (rows_width img)) as [Hh Hw].
  unfold flatten.
  replace (3 * (y * R + x) + c)%nat with (y * (R * 3) + (x * 3 + c))%nat
    by lia.
  rewrite (nth_flat_map_uniform _ _ (R * 3) [] 0).
  - rewrite (nth_flat_map_uniform _ _ 3 black_pixel 0).
    + unfold cvtColor.
      rewrite (nth_indep _ [] (map COLOR_BGR2RGB []))
        by (rewrite length_map, rows_height; exact Hy).
      rewrite (map_nth (map COLOR_BGR2RGB) (rows img) [] y).
      rewrite (nth_indep _ black_pixel (COLOR_BGR2RGB black_pixel)).
      * rewrite (map_nth COLOR_BGR2RGB _ black_pixel x).
        rewrite (nth_rows img y x Hy Hx). reflexivity.
      * rewrite length_map.
        pose proof (rows_width img) as Hrw. rewrite Forall_forall in Hrw.
        rewrite (Hrw (nth y (rows img) [])); [exact Hx |].
        apply nth_In. rewrite rows_height. exact Hy.
    + apply Forall_forall. reflexivity.
    + rewrite Forall_forall in Hw.
      rewrite (Hw (nth y (cvtColor COLOR_BGR2RGB (rows img)) []));
        [exact Hx |].
      apply nth_In. rewrite Hh. exact Hy.
    + exact Hc.
  - eapply Forall_impl; [| exact Hw]. intros row Hrow. cbn beta in *.
    rewrite (length_flat_map_uniform _ row 3%nat).
    + now rewrite Hrow.
    + apply Forall_forall. reflexivity.
  - rewrite Hh. exact Hy.
  - nia.
Qed.

(** X8. Where a pixel lands in the feature vector. For the resized image
    (R x R, read by OpenCV in BGR order), the features
    [3 (y R + x)], [3 (y R + x) + 1], [3 (y R + x) + 2] are the red, green
    and blue values of the pixel in row [y], column [x]: the vector starts
    with the pixels in row-major order, channels interleaved as RGB. *)
Theorem rgb_feature_at {lm : Libm} (R : nat) (img : sq_image R) (y x : nat) :
  (y < R)%nat -> (x < R)%nat ->
  let features := image_features (rows img) in
  let base := (3 * (y * R + x))%nat in
  nth base features 0%Q = inject_Z (ch2 (pixel_at img y x)) /\
  nth (base + 1) features 0%Q = inject_Z (ch1 (pixel_at img y x)) /\
  nth (base + 2) features 0%Q = inject_Z (ch0 (pixel_at img y x)).
Proof.
  intros Hy Hx features base.
  assert (Hrgb : forall c, (c < 3)%nat ->
            nth (base + c) features 0%Q
            = inject_Z (nth c [ch2 (pixel_at img y x); ch1 (pixel_at img y x);
                               ch0 (pixel_at img y x)] 0)).
  { intros c Hc. subst features base. unfold image_features.
    destruct (cvtColor_shape COLOR_BGR2RGB (rows img) R
                (rows_height img) (rows_width img)) as [Hh Hw].
    pose proof (length_flatten _ R Hh Hw) as Hlen.
    rewrite !app_nth1;
      try (rewrite ?length_app, length_map, Hlen; nia).
    change 0%Q with (inject_Z 0). rewrite map_nth.
    now rewrite (nth_flatten_rgb img y x c Hy Hx Hc). }
  repeat split.
  - rewrite <- (Nat.add_0_r base). apply (Hrgb 0%nat). lia.
  - apply (Hrgb 1%nat). lia.
  - apply (Hrgb 2%nat). lia.
Qed.

(** X9. A scaler fitted on at most 3 * 64 * 64 = 12288 columns sees
    pixels only: the row the improved class reconciles to such a width [w]
    is the first [w] RGB values of the resized image, and none of the 16
    HSV, LAB and Sobel statistics. *)
Theorem narrow_scaler_sees_pixels_only {lm : Libm} (img : sq_image 64)
  (w : nat) :
  (0 < w)%nat -> (w <= 3 * 64 * 64)%nat ->
  reconcile (Some w) (image_features (rows img))
  = firstn w (map inject_Z (flatten (cvtColor COLOR_BGR2RGB (rows img)))).
Proof.
  intros Hpos Hw.
  rewrite reconcile_truthy by now apply truthy_Some.
  cbn [width_of]. rewrite length_image_features.
  replace (w - (3 * 64 * 64 + 6 + 6 + 4))%nat with 0%nat by lia.
  cbn [repeat]. rewrite app_nil_r.
  unfold image_features.
  destruct (cvtColor_shape COLOR_BGR2RGB (rows img) 64
              (rows_height img) (rows_width img)) as [Hh Hw'].
  pose proof (length_flatten _ 64 Hh Hw') as Hlen.
  rewrite <- !app_assoc. rewrite firstn_app.
  rewrite length_map, Hlen.
  replace (w - 3 * 64 * 64)%nat with 0%nat by lia.
  cbn [firstn]. now rewrite app_nil_r.
Qed.

(** X10. The two reconciliation sites differ at width 0. The one of the
    [except ValueError] branch compares numbers only, so its result always
    has the expected length, and for [expected = 0] it is the empty row; the
    one of [extract_features_robust] tests the truth value of the width
    first and leaves the row alone at 0. For every other width they
    agree. *)
Theorem reconcile_recovery_vs_reconcile (w : nat) (v : list Q) :
  length (reconcile_recovery w v) = w /\
  reconcile_recovery (S w) v = reconcile (Some (S w)) v /\
  reconcile_recovery 0 v = [] /\
  reconcile (Some 0%nat) v = v.
Proof.
  split; [| split; [| split]].
  - unfold reconcile_recovery.
    destruct (w <? length v)%nat eqn:E1.
    + apply Nat.ltb_lt in E1. rewrite length_firstn. lia.
    + apply Nat.ltb_ge in E1. destruct (length v <? w)%nat eqn:E2.
      * rewrite length_app, repeat_length. lia.
      * apply Nat.ltb_ge in E2. lia.
  - reflexivity.
  - unfold reconcile_recovery. destruct v as [| q v]; reflexivity.
  - reflexivity.
Qed.



Lemma NoDup_skipn {A : Type} (k : nat) (l : list A) :
  NoDup l -> NoDup (skipn k l).
Proof.
  revert l. induction k as [| k IH]; intros l Hl; cbn [skipn].
  - exact Hl.
  - destruct l as [| a rest]; [constructor |].
    apply IH. now inversion Hl.
Qed.

Lemma argsort_last_is_max {np : NpSort} (p : list Q) (t : nat)
  (front : list nat) :
  argsort p = front ++ [t] ->
  Forall (fun i => (prob_at p i <= prob_at p t)%Q) (seq 0 (length p)).
Proof.
  intros E. apply Forall_forall. intros i Hi.
  apply (Permutation_in _ (Permutation_sym (argsort_perm p))) in Hi.
  rewrite E in Hi. apply in_app_or in Hi. destruct Hi as [Hi | [<- | []]].
  - pose proof (argsort_sorted p) as Hs. rewrite E in Hs.
    apply (StronglySorted_app_cross (sorts_before p) front [t] Hs i t Hi).
    now left.
  - apply Qle_refl.
Qed.

(** X12. In the ranked list [np.argsort(p)[-3:][::-1]] no class appears
    twice, and the first entry has the largest probability of all classes;
    the list is empty only when there is no class. *)
Theorem top_indices_head_is_max {np : NpSort} (probabilities : list Q) :
  NoDup (top_indices probabilities) /\
  match top_indices probabilities with
  | [] => probabilities = []
  | best :: _ =>
      Forall (fun i => (prob_at probabilities i
                        <= prob_at probabilities best)%Q)
             (seq 0 (length probabilities))
  end.
Proof.
  split.
  - unfold top_indices, last_n. apply NoDup_rev. apply NoDup_skipn.
    apply (Permutation_NoDup (Permutation_sym (argsort_perm probabilities))).
    apply seq_NoDup.
  - destruct (top_indices probabilities) as [| best rest] eqn:E.
    + pose proof (length_top_indices probabilities) as Hlen.
      rewrite E in Hlen. cbn [length] in Hlen.
      destruct probabilities; [reflexivity | cbn [length] in Hlen; lia].
    + unfold top_indices, last_n in E.
      apply (f_equal (@rev nat)) in E. rewrite rev_involutive in E.
      cbn [rev] in E.
      apply (argsort_last_is_max probabilities best
               (firstn (length (argsort probabilities) - 3)
                       (argsort probabilities) ++ rev rest)).
      rewrite <- app_assoc, <- E. symmetry. apply firstn_skipn.
Qed.

(* ================================================================== *)
(** * The inference script *)

Section InferenceFacts.
Import Inference.
Context {np : NpSort}.

Lemma prob_at_app_middle (pre rest : list Q) (v : Q) :
  prob_at (pre ++ v :: rest) (length pre) = v.
Proof. unfold prob_at. rewrite nth_middle. reflexivity. Qed.

(** The scan of [np.argmax]: the first index of the largest value. *)
Lemma argmax_from_spec (a : list Q) :
  forall (l pre : list Q) (best : nat) (bv : Q),
    a = pre ++ l ->
    (best < length pre)%nat ->
    prob_at a best = bv ->
    (forall j, (j < length pre)%nat -> (prob_at a j <= bv)%Q) ->
    (forall j, (j < best)%nat -> (prob_at a j < bv)%Q) ->
    let r := argmax_from best bv (length pre) l in
    (r < length a)%nat /\
    (forall j, (j < length a)%nat -> (prob_at a j <= prob_at a r)%Q) /\
    (forall j, (j < r)%nat -> (prob_at a j < prob_at a r)%Q).
Proof.
  induction l as [| v rest IH]; intros pre best bv Ha Hbest Hbv Hle Hlt.
  - cbn [argmax_from]. rewrite app_nil_r in Ha. subst a.
    rewrite Hbv. repeat split; assumption.
  - cbn [argmax_from].
    assert (Ha' : a = (pre ++ [v]) ++ rest)
      by (rewrite <- app_assoc; exact Ha).
    assert (Hv : prob_at a (length pre) = v)
      by (rewrite Ha; apply prob_at_app_middle).
    assert (Hlen : length (pre ++ [v]) = S (length pre))
      by (rewrite length_app; cbn; lia).
    destruct (Qle_bool v bv) eqn:E.
    + apply Qle_bool_iff in E.
      specialize (IH (pre ++ [v]) best bv Ha').
      rewrite Hlen in IH. apply IH; try assumption; [lia |].
      intros j Hj. destruct (Nat.eq_dec j (length pre)) as [-> | Hne].
      * now rewrite Hv.
      * apply Hle. lia.
    + assert (Hgt : (bv < v)%Q).
      { apply Qnot_le_lt. intros H. apply Qle_bool_iff in H. congruence. }
      specialize (IH (pre ++ [v]) (length pre) v Ha').
      rewrite Hlen in IH. apply IH; try assumption; [lia | |].
      * intros j Hj. destruct (Nat.eq_dec j (length pre)) as [-> | Hne].
        -- rewrite Hv. apply Qle_refl.
        -- apply Qlt_le_weak. apply Qle_lt_trans with bv; [| exact Hgt].
           apply Hle. lia.
      * intros j Hj. apply Qle_lt_trans with bv; [| exact Hgt].
        now apply Hle.
Qed.

Lemma np_argmax_spec (a : list Q) (i : nat) :
  np_argmax a = inr i ->
  (i < length a)%nat /\
  (forall j, (j < length a)%nat -> (prob_at a j <= prob_at a i)%Q) /\
  (forall j, (j < i)%nat -> (prob_at a j < prob_at a i)%Q).
Proof.
  destruct a as [| v rest]; [discriminate |].
  cbn [np_argmax]. intros [= <-].
  apply (argmax_from_spec (v :: rest) rest [v] 0%nat v); try reflexivity.
  - cbn. lia.
  - intros j Hj. cbn in Hj. replace j with 0%nat by lia. apply Qle_refl.
  - intros j Hj. lia.
Qed.

Lemma slice_from_is_skipn {A : Type} (start : Z) (a : list A) :
  exists k, slice_from start a = skipn k a /\
            Z.of_nat (length (slice_from start a))
            = if start <? 0
              then Z.min (- start) (Z.of_nat (length a))
              else Z.max 0 (Z.of_nat (length a) - start).
Proof.
  unfold slice_from. eexists. split; [reflexivity |].
  rewrite length_skipn.
  destruct (start <? 0) eqn:E;
    [apply Z.ltb_lt in E | apply Z.ltb_ge in E]; lia.
Qed.

Lemma top_k_indices_head (top_k : Z) (p : list Q) (t : nat)
  (rest : list nat) :
  top_k_indices top_k p = t :: rest ->
  exists front, argsort p = front ++ [t].
Proof.
  unfold top_k_indices. intros E.
  destruct (slice_from_is_skipn (- top_k) (argsort p)) as (k & Hk & _).
  rewrite Hk in E.
  apply (f_equal (@rev nat)) in E. rewrite rev_involutive in E.
  cbn [rev] in E.
  exists (firstn k (argsort p) ++ rev rest).
  rewrite <- app_assoc, <- E. symmetry. apply firstn_skipn.
Qed.

Lemma top_k_indices_in_range (top_k : Z) (p : list Q) :
  Forall (fun i => (i < length p)%nat) (top_k_indices top_k p).
Proof.
  apply Forall_forall. intros i Hin. unfold top_k_indices in Hin.
  apply in_rev in Hin.
  destruct (slice_from_is_skipn (- top_k) (argsort p)) as (k & Hk & _).
  rewrite Hk in Hin.
  assert (Hin' : In i (argsort p)).
  { rewrite <- (firstn_skipn k (argsort p)). apply in_or_app. now right. }
  apply (Permutation_in _ (argsort_perm p)) in Hin'.
  apply in_seq in Hin'. lia.
Qed.
End InferenceFacts.

(** X13. How many top predictions [predict_plant] lists. The slice
    [[-top_k:]] gives the last [top_k] indices only for a positive
    [top_k]: with [top_k = 0] it is the whole array, so all [n] classes are
    listed, and with a negative [top_k] the [-top_k] least probable classes
    are left out. *)
Theorem top_k_indices_count {np : NpSort} (top_k : Z)
  (probabilities : list Q) :
  let n := Z.of_nat (length probabilities) in
  Z.of_nat (length (Inference.top_k_indices top_k probabilities))
  = (if 0 <? top_k then Z.min top_k n else Z.max 0 (n + top_k)) /\
  Inference.top_k_indices 0 probabilities = rev (argsort probabilities).
Proof.
  cbv zeta. split.
  - unfold Inference.top_k_indices. rewrite length_rev.
    destruct (slice_from_is_skipn (- top_k) (argsort probabilities))
      as (k & _ & Hlen).
    rewrite Hlen, length_argsort.
    destruct (- top_k <? 0) eqn:E1; destruct (0 <? top_k) eqn:E2;
      try apply Z.ltb_lt in E1; try apply Z.ltb_ge in E1;
      try apply Z.ltb_lt in E2; try apply Z.ltb_ge in E2; lia.
  - unfold Inference.top_k_indices, Inference.slice_from.
    cbn [Z.opp Z.ltb Z.compare].
    replace (Z.min 0 (Z.of_nat (length (argsort probabilities)))) with 0
      by lia.
    reflexivity.
Qed.

(** X14. The headline class and the first top prediction of
    [predict_plant]. [np.argmax] picks the FIRST index of the largest
    probability, the ranked list starts with the last index of
    [np.argsort]: they carry the same confidence, no class beats the
    headline class and no class before it equals it; and when the largest
    probability is reached by one class only, the two are the same class.
    When it is reached by several, which of them the ranked list starts
    with is left to [np.argsort]. *)
Theorem headline_and_first_top {np : NpSort} (top_k : Z) (p : list Q)
  (i t : nat) (rest : list nat) :
  Inference.np_argmax p = inr i ->
  Inference.top_k_indices top_k p = t :: rest ->
  (prob_at p i == prob_at p t)%Q /\
  (forall j, (j < length p)%nat -> (prob_at p j <= prob_at p i)%Q) /\
  (forall j, (j < i)%nat -> (prob_at p j < prob_at p i)%Q) /\
  ((forall j, (j < length p)%nat -> j <> i ->
              (prob_at p j < prob_at p i)%Q) ->
   t = i).
Proof.
  intros Hi Ht.
  destruct (np_argmax_spec p i Hi) as (Hir & Hmax & Hfirst).
  destruct (top_k_indices_head top_k p t rest Ht) as [front Hfront].
  pose proof (top_k_indices_in_range top_k p) as Hr.
  rewrite Ht in Hr. apply Forall_inv in Hr.
  pose proof (argsort_last_is_max p t front Hfront) as Htmax.
  rewrite Forall_forall in Htmax.
  assert (Heq : (prob_at p i == prob_at p t)%Q).
  { apply Qle_antisym.
    - apply Htmax. apply in_seq. lia.
    - now apply Hmax. }
  split; [exact Heq |]. split; [exact Hmax |]. split; [exact Hfirst |].
  intros Hunique.
  destruct (Nat.eq_dec t i) as [E | Hne]; [exact E |].
  exfalso. apply (Qlt_irrefl (prob_at p i)).
  rewrite Heq at 1. now apply Hunique.
Qed.

(** X15. The complete answer of [predict_plant]. With the model and the
    classes file loading, the image preprocessing, the model returning a
    batch whose first row [p] is not empty, and at least as many class
    lines as probabilities: the result is the success record with the class
    of the first maximum of [p], its probability as confidence, one entry
    (class, confidence, index) per index of
    [np.argsort(p)[-top_k:][::-1]] in that order, whatever order
    [np.argsort] leaves equal probabilities in, and the number of class
    lines. *)
Theorem predict_plant_success {tf : Inference.Tf} {np : NpSort}
  (image_path model_path classes_path : string) (top_k : Z)
  (model : Inference.KerasModel Inference.tensor) (lines : list string)
  (x : Inference.tensor) (p : list Q) (batch : list (list Q)) (i : nat) :
  Inference.load_model model_path = inr model ->
  Inference.readlines classes_path = inr lines ->
  Inference.preprocess_image image_path 128 = inr x ->
  Inference.keras_predict model x = inr (p :: batch) ->
  Inference.np_argmax p = inr i ->
  (length p <= length lines)%nat ->
  let names := map Inference.strip lines in
  Inference.predict_plant image_path model_path classes_path top_k
  = Inference.JDict
      [("success", Inference.JBool true);
       ("predicted_class", Inference.JStr (nth i names ""));
       ("confidence", Inference.JFloat (prob_at p i));
       ("top_predictions",
        Inference.JList
          (map (fun idx =>
                  Inference.JDict
                    [("class", Inference.JStr (nth idx names ""));
                     ("confidence", Inference.JFloat (prob_at p idx));
                     ("index", Inference.JInt (Z.of_nat idx))])
               (Inference.top_k_indices top_k p)));
       ("total_classes", Inference.JInt (Z.of_nat (length lines)));
       ("model_info",
        Inference.JDict
          [("input_shape", Inference.input_shape model);
           ("output_shape", Inference.output_shape model)])]%string.
Proof.
  intros Hmodel Hlines Hx Hp Hi Hlen names.
  destruct (np_argmax_spec p i Hi) as (Hir & _ & _).
  assert (Hn : length names = length lines)
    by (subst names; apply length_map).
  unfold Inference.predict_plant, Inference.predict_plant_body,
    Inference.load_model_and_classes.
  rewrite Hmodel. cbn [sum_bind]. rewrite Hlines.
  cbn [sum_bind Inference.reraise fst snd]. fold names.
  rewrite Hx. cbn [sum_bind]. rewrite Hp. cbn [sum_bind].
  change (py_index (p :: batch) 0) with (@inr exn _ p). cbn [sum_bind].
  rewrite Hi. cbn [sum_bind].
  rewrite (py_index_in_range names i ""%string) by lia. cbn [sum_bind].
  rewrite (py_index_in_range p i 0%Q Hir). cbn [sum_bind].
  fold (prob_at p i).
  erewrite sum_map_returns.
  - cbn [sum_bind]. rewrite Hn. reflexivity.
  - intros idx Hidx. unfold Inference.top_k_entry.
    pose proof (top_k_indices_in_range top_k p) as Hr.
    rewrite Forall_forall in Hr. specialize (Hr idx Hidx).
    rewrite (py_index_in_range names idx ""%string) by lia. cbn [sum_bind].
    rewrite (py_index_in_range p idx 0%Q Hr). reflexivity.
Qed.

(** X16. What [predict_plant] reports when loading fails. The model and
    the classes file are loaded before the image is touched, and the two
    helpers prefix the cause: a failure of [load_model] or of reading the
    classes file gives the error text ['Failed to load model: ' + cause],
    whatever the image; with both loaded, a failure of [Image.open] gives
    ['Failed to preprocess image: ' + cause]. Either way the record has
    [predicted_class None], confidence 0 and no top prediction. *)
Theorem predict_plant_error_text {tf : Inference.Tf} {np : NpSort}
  (image_path model_path classes_path : string) (top_k : Z) (e : exn) :
  let report text :=
    Inference.JDict
      [("success", Inference.JBool false);
       ("error", Inference.JStr text);
       ("predicted_class", Inference.JNull);
       ("confidence", Inference.JFloat 0);
       ("top_predictions", Inference.JList [])]%string in
  ((Inference.load_model model_path = inl e \/
    (exists model, Inference.load_model model_path = inr model) /\
    Inference.readlines classes_path = inl e) ->
   Inference.predict_plant image_path model_path classes_path top_k
   = report ("Failed to load model: " ++ str e)%string) /\
  ((exists model, Inference.load_model model_path = inr model) ->
   (exists lines, Inference.readlines classes_path = inr lines) ->
   Inference.Image_open image_path = inl e ->
   Inference.predict_plant image_path model_path classes_path top_k
   = report ("Failed to preprocess image: " ++ str e)%string).
Proof.
  cbv zeta. split.
  - intros [Hm | [[model Hm] Hl]];
      unfold Inference.predict_plant, Inference.predict_plant_body,
        Inference.load_model_and_classes;
      rewrite Hm; cbn [sum_bind]; [| rewrite Hl]; reflexivity.
  - intros [model Hm] [lines Hl] Himg.
    unfold Inference.predict_plant, Inference.predict_plant_body,
      Inference.load_model_and_classes, Inference.preprocess_image.
    rewrite Hm. cbn [sum_bind]. rewrite Hl.
    cbn [sum_bind Inference.reraise fst snd]. rewrite Himg. reflexivity.
Qed.

(** X17. A classes file shorter than the model's output. When the first
    maximum of the probability row lies at or past the number of class
    lines, [class_names[predicted_class_idx]] raises and [predict_plant]
    returns its failure record instead of a prediction. *)
Theorem predict_plant_short_classes_file {tf : Inference.Tf} {np : NpSort}
  (image_path model_path classes_path : string) (top_k : Z)
  (model : Inference.KerasModel Inference.tensor) (lines : list string)
  (x : Inference.tensor) (p : list Q) (batch : list (list Q)) (i : nat) :
  Inference.load_model model_path = inr model ->
  Inference.readlines classes_path = inr lines ->
  Inference.preprocess_image image_path 128 = inr x ->
  Inference.keras_predict model x = inr (p :: batch) ->
  Inference.np_argmax p = inr i ->
  (length lines <= i)%nat ->
  exists msg,
    Inference.predict_plant image_path model_path classes_path top_k
    = Inference.failure (IndexError msg).
Proof.
  intros Hmodel Hlines Hx Hp Hi Hlen.
  unfold Inference.predict_plant, Inference.predict_plant_body,
    Inference.load_model_and_classes.
  rewrite Hmodel. cbn [sum_bind]. rewrite Hlines.
  cbn [sum_bind Inference.reraise fst snd].
  rewrite Hx. cbn [sum_bind]. rewrite Hp. cbn [sum_bind].
  change (py_index (p :: batch) 0) with (@inr exn _ p). cbn [sum_bind].
  rewrite Hi. cbn [sum_bind].
  rewrite (py_index_past_end (map Inference.strip lines) (Z.of_nat i))
    by (rewrite length_map; lia).
  cbn [sum_bind]. eexists. reflexivity.
Qed.

(* ================================================================== *)
(** * The further theorems at concrete inputs *)

(** [init_model_implies_all_loaded] over the sample directory. *)
Lemma init_model_implies_all_loaded_witness :
  let self := improved_over (sample_dir 20 true) in
  Improved.model self = Some (sample_model sample_probabilities) /\
  exists p s, Improved.pca self = Some p /\ Improved.scaler self = Some s.
Proof.
  cbv zeta. split; [reflexivity |].
  destruct (proj1 (init_model_implies_all_loaded (sample_dir 20 true))
              fresh_improved [] (sample_model sample_probabilities) eq_refl)
    as (_ & p & s & _ & _ & Hp & Hs).
  exists p, s. split; [exact Hp | exact Hs].
Defined.

(** [improved_classify_success] on the black image, with a scaler fitted
    on 20 columns. *)
Lemma improved_classify_success_witness :
  let self := loaded_improved (sample_model sample_probabilities) sample_pca
                              (sample_scaler 20 true) in
  exists fed,
    Improved.classify_image_safe "black.png" self []
    = Outcome
        (inr (PyDict
                [("success", PyBool true);
                 ("predicted_class", PyStr "class_1");
                 ("confidence", PyFloat ((1 # 2) * 100));
                 ("top_predictions",
                  PyList
                    [PyDict [("plant", PyStr "class_1");
                             ("confidence", PyFloat ((1 # 2) * 100))];
                     PyDict [("plant", PyStr "class_2");
                             ("confidence", PyFloat ((3 # 10) * 100))];
                     PyDict [("plant", PyStr "class_0");
                             ("confidence", PyFloat ((1 # 5) * 100))]]);
                 ("model_type", PyStr "sklearn_improved")]%string))
        self [ScalerTransform fed].
Proof.
  cbv zeta. eexists.
  exact (improved_classify_success
           (lm := fixed_point_libm) (io := sample_cv2)
           "black.png" black_raw (sample_model sample_probabilities)
           sample_pca (sample_scaler 20 true)
           (loaded_improved (sample_model sample_probabilities) sample_pca
                            (sample_scaler 20 true)) []
           _ 1 sample_probabilities
           eq_refl eq_refl eq_refl eq_refl
           (reconcile_length (Some 20%nat) _ eq_refl)
           eq_refl eq_refl eq_refl
           (conj (Z.le_0_1) eq_refl)).
Defined.


(** [improved_unknown_needs_classes] with a model that predicts index 7
    over three classes. *)
Lemma improved_unknown_needs_classes_witness :
  let self := loaded_improved (sample_model_at 7 sample_probabilities)
                              sample_pca (sample_scaler 20 true) in
  exists msg,
    result (Improved.classify_image_safe "black.png" self [])
    = inr (Improved.failure ("Classification failed: " ++ msg)).
Proof.
  cbv zeta.
  destruct (improved_unknown_needs_classes
              (lm := fixed_point_libm) (io := sample_cv2)
              "black.png" black_raw (sample_model_at 7 sample_probabilities)
              sample_pca (sample_scaler 20 true)
              (loaded_improved (sample_model_at 7 sample_probabilities)
                               sample_pca (sample_scaler 20 true)) []
              eq_refl eq_refl eq_refl eq_refl
              (reconcile_length (Some 20%nat) _ eq_refl) eq_refl)
    as [_ H].
  refine (H _ 7 sample_probabilities eq_refl eq_refl eq_refl _).
  cbn. lia.
Defined.

(** [basic_classify_success] on the black image, with a scaler fitted on
    the 49168 columns the basic class extracts. *)
Lemma basic_classify_success_witness :
  let self := loaded_basic (sample_model sample_probabilities) sample_pca
                           (sample_scaler basic_width false) in
  exists features,
    Basic.classify_image "black.png" self []
    = Outcome
        (inr (PyDict
                [("predicted_class", PyStr "Amla");
                 ("confidence", PyFloat ((1 # 2) * 100));
                 ("top_predictions",
                  PyList
                    [PyDict [("plant", PyStr "Amla");
                             ("confidence", PyFloat ((1 # 2) * 100))];
                     PyDict [("plant", PyStr "Amruta_Balli");
                             ("confidence", PyFloat ((3 # 10) * 100))];
                     PyDict [("plant", PyStr "Aloevera");
                             ("confidence", PyFloat ((1 # 5) * 100))]])]%string))
        self [ScalerTransform features].
Proof.
  cbv zeta. eexists.
  refine (basic_classify_success
            (lm := fixed_point_libm) (io := sample_cv2)
            "black.png" black_raw (sample_model sample_probabilities)
            sample_pca (sample_scaler basic_width false)
            (loaded_basic (sample_model sample_probabilities) sample_pca
                          (sample_scaler basic_width false)) []
            _ 1 sample_probabilities
            eq_refl eq_refl eq_refl eq_refl
            (length_image_features 128 _)
            eq_refl eq_refl eq_refl
            (conj (Z.le_0_1) eq_refl) eq_refl _).
  repeat constructor.
Defined.

(** [basic_classify_outside_table] with a model that predicts index 80,
    past the 74 names of the table. *)
Lemma basic_classify_outside_table_witness :
  let self := loaded_basic (sample_model_at 80 sample_probabilities)
                           sample_pca (sample_scaler basic_width false) in
  exists features,
    Basic.classify_image "black.png" self []
    = Outcome (inr PyNone) self [ScalerTransform features].
Proof.
  cbv zeta. eexists.
  refine (basic_classify_outside_table
            (lm := fixed_point_libm) (io := sample_cv2)
            "black.png" black_raw (sample_model_at 80 sample_probabilities)
            sample_pca (sample_scaler basic_width false)
            (loaded_basic (sample_model_at 80 sample_probabilities)
                          sample_pca (sample_scaler basic_width false)) []
            _ 80 sample_probabilities
            eq_refl eq_refl eq_refl eq_refl
            eq_refl eq_refl eq_refl (or_introl _)).
  cbn. lia.
Defined.

(** [rgb_feature_at] on the two-colour image resized to 2 x 2: the pixel
    of row 1, column 0 is (B, G, R) = (10, 90, 20). *)
Lemma rgb_feature_at_witness :
  let features :=
    image_features (lm := fixed_point_libm)
                   (rows (nearest_resize leaf_image 2)) in
  nth 6 features 0%Q = 20%Q /\
  nth 7 features 0%Q = 90%Q /\
  nth 8 features 0%Q = 10%Q.
Proof.
  cbv zeta.
  exact (rgb_feature_at (lm := fixed_point_libm) 2
           (nearest_resize leaf_image 2) 1 0
           (Nat.lt_succ_diag_r 1) (Nat.lt_0_succ 1)).
Defined.

(** [narrow_scaler_sees_pixels_only] on the black image and width 20. *)
Lemma narrow_scaler_sees_pixels_only_witness :
  reconcile (Some 20%nat)
            (image_features (lm := fixed_point_libm) (rows (black_image 64)))
  = firstn 20
      (map inject_Z (flatten (cvtColor COLOR_BGR2RGB (rows (black_image 64))))).
Proof.
  apply (narrow_scaler_sees_pixels_only (lm := fixed_point_libm)); lia.
Defined.


(** [headline_and_first_top] on a row with a tie at the top: the headline
    class is 1; the ranked list starts with class 2 under the stable sort
    and with class 1 under the sort that leaves ties in descending index
    order; the confidence is the same. *)
Lemma headline_and_first_top_witness :
  let p := [(1 # 2); (3 # 4); (3 # 4); (1 # 4)]%Q in
  Inference.np_argmax p = inr 1%nat /\
  Inference.top_k_indices (np := stable_argsort) 2 p = [2%nat; 1%nat] /\
  Inference.top_k_indices (np := descending_ties_argsort) 2 p
  = [1%nat; 2%nat] /\
  (prob_at p 1 == prob_at p 2)%Q.
Proof.
  cbv zeta. split; [reflexivity |]. split; [reflexivity |].
  split; [reflexivity |].
  destruct (headline_and_first_top (np := stable_argsort)
              2 [(1 # 2); (3 # 4); (3 # 4); (1 # 4)]%Q
              1 2 [1%nat] eq_refl eq_refl) as (Heq & _).
  exact Heq.
Defined.

(** [predict_plant_success] on the sample files. *)
Lemma predict_plant_success_witness :
  Inference.predict_plant "leaf.jpg" "model.h5" "classes.txt" 1
  = Inference.JDict
      [("success", Inference.JBool true);
       ("predicted_class", Inference.JStr "neem");
       ("confidence", Inference.JFloat (1 # 2));
       ("top_predictions",
        Inference.JList
          [Inference.JDict
             [("class", Inference.JStr "neem");
              ("confidence", Inference.JFloat (1 # 2));
              ("index", Inference.JInt 1)]]);
       ("total_classes", Inference.JInt 3);
       ("model_info",
        Inference.JDict
          [("input_shape", Inference.input_shape sample_keras);
           ("output_shape", Inference.output_shape sample_keras)])]%string.
Proof.
  refine (predict_plant_success (tf := sample_tf)
            "leaf.jpg" "model.h5" "classes.txt" 1 sample_keras
            [("turmeric" ++ newline)%string; ("neem" ++ newline)%string;
             "ginger"%string]
            [(1 # 5); (2 # 5); 1]%Q [(1 # 5); (1 # 2); (3 # 10)]%Q [] 1
            eq_refl eq_refl eq_refl eq_refl eq_refl _).
  cbn. lia.
Defined.

(** [predict_plant_error_text] with a missing image. *)
Lemma predict_plant_error_text_witness :
  Inference.predict_plant "nope.jpg" "model.h5" "classes.txt" 5
  = Inference.JDict
      [("success", Inference.JBool false);
       ("error",
        Inference.JStr
          "Failed to preprocess image: No such file or directory");
       ("predicted_class", Inference.JNull);
       ("confidence", Inference.JFloat 0);
       ("top_predictions", Inference.JList [])]%string.
Proof.
  refine (proj2 (predict_plant_error_text (tf := sample_tf)
                   "nope.jpg" "model.h5" "classes.txt" 5
                   (OSError "No such file or directory")) _ _ eq_refl).
  - eexists. reflexivity.
  - eexists. reflexivity.
Defined.

(** [predict_plant_short_classes_file] with a classes file of one line and
    the maximum at index 1. *)
Lemma predict_plant_short_classes_file_witness :
  exists msg,
    Inference.predict_plant "leaf.jpg" "model.h5" "short.txt" 5
    = Inference.failure (IndexError msg).
Proof.
  refine (predict_plant_short_classes_file (tf := sample_tf)
            "leaf.jpg" "model.h5" "short.txt" 5 sample_keras
            [("turmeric" ++ newline)%string]
            [(1 # 5); (2 # 5); 1]%Q [(1 # 5); (1 # 2); (3 # 10)]%Q [] 1
            eq_refl eq_refl eq_refl eq_refl eq_refl _).
  cbn. lia.
Defined.
